(** * Azure Digital Twins output binding and the pub/sub cloud-event envelope

    A shallow embedding of [bindings/azure/digitaltwins/digitaltwins.go]
    (package [digitaltwins]) and of the cloud-event envelope helpers of
    package [pubsub], followed by the properties of both that the
    specification states.

    Conventions.
    - A Go [string] is a byte sequence: it is a [string] here (a list of
      8-bit [ascii] characters).  A Go [[]byte] is a [list byte].
    - A Go [map[string]T] is a [gmap string T]; a map variable that may
      still be [nil] is an [option (gmap string T)].
    - A Go [interface{}] holding decoded JSON is a [value].
    - Library calls whose code is not part of the repository
      ([json.Unmarshal], [json.Marshal], [time.Parse], [uuid.New], the
      REST client) are [Variable]s of the enclosing [Section].
    - Logging is not modelled. *)

From Stdlib Require Import ZArith Ascii String List Bool Lia.
From Stdlib.Strings Require Import Byte.
From stdpp Require Import base option list strings gmap.

Local Open Scope string_scope.
Local Open Scope list_scope.

(** * Part I: the embedding *)

(** ** Go strings *)

Module GoString.

Definition slash : ascii := "/"%char.
Definition newline : ascii := "010"%char.

(** [s == ""] *)
Definition is_empty (s : string) : bool :=
  match s with
  | EmptyString => true
  | String _ _ => false
  end.

(** [string(b)] for [b []byte]: the same bytes. *)
Definition of_bytes (b : list byte) : string := string_of_list_byte b.

(** [[]byte(s)] *)
Definition to_bytes (s : string) : list byte := list_byte_of_string s.

(** [val, ok := m[k]; ok && val != ""], giving [val] when the test holds. *)
Definition present_nonempty (m : gmap string string) (k : string) : option string :=
  match m !! k with
  | Some val => if negb (is_empty val) then Some val else None
  | None => None
  end.

End GoString.

(** ** The path pattern [^/(.+?)\/(.+)$]

    Go's [regexp] has leftmost-first (Perl-like) semantics, [.] matches
    every character but a newline, and [$] without the [m] flag matches at
    the end of the text only.  [/] and newline are ASCII, so a byte-wise
    reading of the UTF-8 text agrees with the rune-wise one. *)

Module PathRegexp.
Import GoString.

(** [.] *)
Definition dot (c : ascii) : bool := negb (Ascii.eqb c newline).

(** [.*$] *)
Fixpoint dot_star (s : string) : bool :=
  match s with
  | EmptyString => true
  | String c s' => dot c && dot_star s'
  end.

(** [.+$] *)
Definition dot_plus (s : string) : bool :=
  match s with
  | EmptyString => false
  | String c s' => dot c && dot_star s'
  end.

(** [(.+?)\/(.+)$] read from the current position; [started] tells
    whether the first group already holds a character.  The lazy group
    stops at the first position where the rest of the pattern matches. *)
Fixpoint lazy_groups (started : bool) (s : string) : option (string * string) :=
  match s with
  | EmptyString => None
  | String c s' =>
      if started && Ascii.eqb c slash && dot_plus s' then Some (EmptyString, s')
      else if dot c then
        match lazy_groups true s' with
        | Some (g1, g2) => Some (String c g1, g2)
        | None => None
        end
      else None
  end.

(** [r.FindStringSubmatch(path)]: [nil] when the pattern does not match,
    else the whole match followed by the two groups. *)
Definition FindStringSubmatch (path : string) : list string :=
  match path with
  | EmptyString => []
  | String c s =>
      if Ascii.eqb c slash then
        match lazy_groups false s with
        | Some (g1, g2) => [path; g1; g2]
        | None => []
        end
      else []
  end.

(** The decompositions [/<twin>/<rest>] the pattern allows: both parts
    are non-empty and free of newlines. *)
Definition splits (path twin rest : string) : Prop :=
  path = String slash (twin +:+ String slash rest)
  /\ twin <> "" /\ rest <> ""
  /\ dot_star twin = true /\ dot_star rest = true.

(** A path matches the pattern when it has such a decomposition. *)
Definition matches_pattern (path : string) : Prop :=
  exists twin rest, splits path twin rest.

End PathRegexp.

(** ** Dynamic values and effects *)

(** A Go [interface{}] as the JSON decoders fill it: [nil], [bool],
    [float64] (kept as its literal), [string], [[]interface{}] and
    [map[string]interface{}]. *)
#[warnings="-register-all"]
Inductive value : Type :=
| VNil
| VBool (b : bool)
| VNumber (literal : string)
| VString (s : string)
| VSlice (elems : list value)
| VMap (entries : list (string * value)).

(** Go's [error]: [None] is the [nil] error, [Some msg] an error value. *)
Definition error : Type := string.

(** ** Package [digitaltwins] *)

Module DigitalTwins.
Import GoString PathRegexp.

(** [AzureDigitalTwins] without its logger. *)
Record AzureDigitalTwins : Type := {
  clientID : string;
  clientSecret : string;
  tenantID : string;
  adtInstanceURL : string
}.

(** [azureDigitalTwinsMetadata]; the fields carry a prefix because the Go
    struct shares its field names with [AzureDigitalTwins]. *)
Record azureDigitalTwinsMetadata : Type := {
  meta_clientID : string;
  meta_clientSecret : string;
  meta_tenantID : string;
  meta_adtInstanceURL : string
}.

Record jsonPatchOperation : Type := {
  Op : string;
  Path : string;
  Value : value;
  TwinID : string
}.

(** Modelled from the spec: [bindings.Metadata] is declared in package
    [bindings]; the binding reads its [Properties], a mapping from
    configuration names to string values. *)
Record Metadata : Type := {
  Name : string;
  Properties : gmap string string
}.

(** Modelled from the spec: [bindings.InvokeRequest] is declared in
    package [bindings]; a generic invoke request carries
    [{data: bytes, metadata: mapping<string,string>}]. *)
Record InvokeRequest : Type := {
  req_Data : list byte;
  req_Metadata : gmap string string
}.

(** Modelled from the spec: [bindings.InvokeResponse] is declared in
    package [bindings]; the binding never builds one. *)
Record InvokeResponse : Type := {
  resp_Data : list byte;
  resp_Metadata : gmap string string
}.

(** One call [client.Update(ctx, id, patchDocument, ifMatch, traceparent,
    tracestate)] of the REST client, with the base URI and the
    client-credentials configuration the client was built from. *)
Record UpdateCall : Type := {
  call_baseURI : string;
  call_clientID : string;
  call_clientSecret : string;
  call_tenantID : string;
  call_resource : string;
  call_id : string;
  call_patchDocument : list jsonPatchOperation;
  call_ifMatch : string;
  call_traceparent : string;
  call_tracestate : string
}.

(** The binding's only effect is the sequence of update calls it sends:
    a computation threads the calls sent so far. *)
Definition Eff (A : Type) : Type := list UpdateCall -> A * list UpdateCall.

Definition ret {A : Type} (a : A) : Eff A := fun sent => (a, sent).

Definition bind {A B : Type} (c : Eff A) (k : A -> Eff B) : Eff B :=
  fun sent => let '(a, sent') := c sent in k a sent'.

Notation "x <-- c ;; k" := (bind c (fun x => k))
  (at level 100, c at next level, right associativity).

(** The value a computation returns and the calls it sends, from a
    state where nothing was sent. *)
Definition result_of {A : Type} (c : Eff A) : A := fst (c []).
Definition calls_of {A : Type} (c : Eff A) : list UpdateCall := snd (c []).

(** [operationDoc[i].TwinID = t] and [operationDoc[i].Path = p] *)
Definition with_TwinID (t : string) (o : jsonPatchOperation) : jsonPatchOperation :=
  {| Op := Op o; Path := Path o; Value := Value o; TwinID := t |}.

Definition with_Path (p : string) (o : jsonPatchOperation) : jsonPatchOperation :=
  {| Op := Op o; Path := p; Value := Value o; TwinID := TwinID o |}.

Section Binding.

(** [json.Unmarshal(data, &operationDoc)] for
    [operationDoc []jsonPatchOperation]: the decoded operations, or
    [None] when it returns an error. *)
Variable json_Unmarshal : list byte -> option (list jsonPatchOperation).

(** [json.Marshal(patchDoc)]: the encoding, or [None] on an error. *)
Variable json_Marshal : list jsonPatchOperation -> option string.

(** What the service answers to an update call ([nil] error or an
    error). *)
Variable update_outcome : UpdateCall -> option error.

(** The client is built from the binding's configuration before each
    call; a failure of [ccc.Authorizer()] is dropped by the code. *)
Definition new_call (d : AzureDigitalTwins) (twinID : string)
    (patchDocument : list jsonPatchOperation) : UpdateCall :=
  {| call_baseURI := adtInstanceURL d;
     call_clientID := clientID d;
     call_clientSecret := clientSecret d;
     call_tenantID := tenantID d;
     call_resource := "https://digitaltwins.azure.net";
     call_id := twinID;
     call_patchDocument := patchDocument;
     call_ifMatch := "*";
     call_traceparent := "";
     call_tracestate := "" |}.

Definition client_Update (c : UpdateCall) : Eff (option error) :=
  fun sent => (update_outcome c, sent ++ [c]).

Definition getAzureDigitalTwinsMetadata (metadata : Metadata)
    : azureDigitalTwinsMetadata + error :=
  match present_nonempty (Properties metadata) "clientId" with
  | None => inr "azureDigitalTwins error: missing clientId"
  | Some id =>
  match present_nonempty (Properties metadata) "clientSecret" with
  | None => inr "azureDigitalTwins error: missing clientSecret"
  | Some secret =>
  match present_nonempty (Properties metadata) "tenantId" with
  | None => inr "azureDigitalTwins error: missing tenantId"
  | Some tenant =>
  match present_nonempty (Properties metadata) "adtInstanceUrl" with
  | None => inr "azureDigitalTwins error: missing adtInstanceUrl"
  | Some url =>
      inl {| meta_clientID := id; meta_clientSecret := secret;
             meta_tenantID := tenant; meta_adtInstanceURL := url |}
  end end end end.

(** [Init] updates the receiver: the binding after the call and the
    error returned. *)
Definition Init (d : AzureDigitalTwins) (metadata : Metadata)
    : AzureDigitalTwins * option error :=
  match getAzureDigitalTwinsMetadata metadata with
  | inr err => (d, Some err)
  | inl meta =>
      ({| clientID := meta_clientID meta;
          clientSecret := meta_clientSecret meta;
          tenantID := meta_tenantID meta;
          adtInstanceURL := meta_adtInstanceURL meta |}, None)
  end.

(** [s] holds the operations of [operationDoc], each boxed as an
    [interface{}]. *)
Definition patchSingleTwin (d : AzureDigitalTwins) (twinID : string)
    (req : InvokeRequest) : Eff (option InvokeResponse * option error) :=
  match json_Unmarshal (req_Data req) with
  | None => ret (None, None)
  | Some operationDoc =>
      let s := operationDoc in
      _ <-- client_Update (new_call d twinID s) ;;
      ret (None, None)
  end.

(** First pass of [patchMultipleTwin]: [pending] are the operations
    [range] still has to visit, [i] the index of the first of them;
    [None] is the early [return nil, nil]. *)
Fixpoint first_pass (i : nat) (pending operationDoc : list jsonPatchOperation)
    : option (list jsonPatchOperation) :=
  match pending with
  | [] => Some operationDoc
  | v :: pending' =>
      let matches := FindStringSubmatch (Path v) in
      if (length matches <? 3)%nat || (3 <? length matches)%nat then None
      else
        let operationDoc := alter (with_TwinID (matches !!! 1%nat)) i operationDoc in
        let operationDoc := alter (with_Path ("/" +:+ matches !!! 2%nat)) i operationDoc in
        first_pass (S i) pending' operationDoc
  end.

(** Second pass: one update call per operation; a marshalling error
    returns at once. *)
Fixpoint second_pass (d : AzureDigitalTwins) (operationDoc : list jsonPatchOperation)
    : Eff (option InvokeResponse * option error) :=
  match operationDoc with
  | [] => ret (None, None)
  | v :: rest =>
      let patchDoc := [v] in
      match json_Marshal patchDoc with
      | None => ret (None, None)
      | Some b =>
          _ <-- client_Update (new_call d (TwinID v) patchDoc) ;;
          second_pass d rest
      end
  end.

(** The pattern is a constant that compiles, so the branch on the error
    of [regexp.Compile] is never taken. *)
Definition patchMultipleTwin (d : AzureDigitalTwins) (req : InvokeRequest)
    : Eff (option InvokeResponse * option error) :=
  match json_Unmarshal (req_Data req) with
  | None => ret (None, None)
  | Some operationDoc =>
      match first_pass 0 operationDoc operationDoc with
      | None => ret (None, None)
      | Some operationDoc => second_pass d operationDoc
      end
  end.

Definition Invoke (d : AzureDigitalTwins) (req : InvokeRequest)
    : Eff (option InvokeResponse * option error) :=
  match present_nonempty (req_Metadata req) "twinID" with
  | Some val => patchSingleTwin d val req
  | None => patchMultipleTwin d req
  end.

End Binding.

(** *** The demultiplexer as the specification words it

    "splits them into per-twin operation lists and issues one update call
    per twin": the operations of one twin are collected, in input order,
    into one patch document; the twins come in the order of their first
    operation. *)

Fixpoint add_to_twin (o : jsonPatchOperation)
    (groups : list (string * list jsonPatchOperation))
    : list (string * list jsonPatchOperation) :=
  match groups with
  | [] => [(TwinID o, [o])]
  | (t, ops) :: groups' =>
      if String.eqb t (TwinID o) then (t, ops ++ [o]) :: groups'
      else (t, ops) :: add_to_twin o groups'
  end.

Definition per_twin_lists (ops : list jsonPatchOperation)
    : list (string * list jsonPatchOperation) :=
  fold_left (fun groups o => add_to_twin o groups) ops [].

Definition grouped_calls (d : AzureDigitalTwins) (ops : list jsonPatchOperation)
    : list UpdateCall :=
  map (fun g => new_call d (fst g) (snd g)) (per_twin_lists ops).

(** [NewAzureDigitalTwins(logger)]: a binding with its logger only; the
    four configuration fields have their zero value. *)
Definition NewAzureDigitalTwins : AzureDigitalTwins :=
  {| clientID := ""; clientSecret := ""; tenantID := ""; adtInstanceURL := "" |}.

(** The operation as the first pass leaves it, for a path with the
    decomposition [/<twin>/<rest>]. *)
Definition stripped (twin rest : string) (o : jsonPatchOperation) : jsonPatchOperation :=
  {| Op := Op o; Path := String slash rest; Value := Value o; TwinID := twin |}.

End DigitalTwins.

(** ** Package [pubsub]: the cloud-event envelope *)

Module PubSub.
Import GoString.

Definition DefaultCloudEventType : string := "com.dapr.event.sent".
Definition CloudEventsSpecVersion : string := "1.0".
Definition ContentType : string := "application/cloudevents+json".
Definition DefaultCloudEventSource : string := "Dapr".
Definition DefaultCloudEventDataContentType : string := "text/plain".
Definition TraceIDField : string := "traceid".
Definition expirationField : string := "expiration".

(** [time.Time]: the instant, in nanoseconds since the Unix epoch, and
    the offset of its location from UTC, in seconds.  [time.Duration] is
    a number of nanoseconds. *)
Record Time : Type := {
  unixNano : Z;
  zoneOffset : Z
}.

Definition Duration : Type := Z.

(** [t.UTC()] keeps the instant and moves the location to UTC. *)
Definition UTC (t : Time) : Time :=
  {| unixNano := unixNano t; zoneOffset := 0 |}.

(** [t.Before(u)] compares instants. *)
Definition Before (t u : Time) : bool := (unixNano t <? unixNano u)%Z.

(** [t.Add(d)] *)
Definition Add (t : Time) (d : Duration) : Time :=
  {| unixNano := unixNano t + d; zoneOffset := zoneOffset t |}.

(** A call either returns or panics. *)
Inductive outcome (A : Type) : Type :=
| Returns (a : A)
| Panics (msg : string).

Arguments Returns {A} a.
Arguments Panics {A} msg.

(** Modelled from the spec: [Feature] and its method [IsPresent] are
    declared in another file of package [pubsub]; "capability-checked via
    a feature-set membership test". *)
Definition Feature : Type := string.

Definition IsPresent (f : Feature) (features : list Feature) : bool :=
  existsb (String.eqb f) features.

(** [e != ""] for [e interface{}]: only the string [""] is equal to
    [""]. *)
Definition differs_from_empty_string (e : value) : bool :=
  match e with
  | VString s => negb (is_empty s)
  | _ => true
  end.

Section Envelope.

(** [uuid.New().String()] *)
Variable uuid_New : string.

(** [jsoniter.Unmarshal(data, &j)] for [j interface{}]: the value left
    in [j] and the error. *)
Variable jsoniter_Unmarshal : list byte -> value * option error.

(** [jsoniter.Unmarshal(cloudEvent, &m)] for [m map[string]interface{}]
    declared without a value: the map left in [m] ([None] when it is
    still [nil]) and the error. *)
Variable jsoniter_Unmarshal_map : list byte -> option (gmap string value) * option error.

(** [fmt.Sprintf("%s", e)] for an [e] that is no string. *)
Variable fmt_Sprintf_other : value -> string.

(** [time.Parse(time.RFC3339, s)]: [None] on an error. *)
Variable time_Parse_RFC3339 : string -> option Time.

(** [t.Format(time.RFC3339)] *)
Variable time_Format_RFC3339 : Time -> string.

(** Modelled from the spec: [FeatureMessageTTL], the feature of a
    component that supports message TTL natively, is declared in another
    file of package [pubsub]. *)
Variable FeatureMessageTTL : Feature.

(** Modelled from the spec: [contrib_metadata.TryGetTTL] is declared in
    package [metadata] of the repository; it "reads a TTL duration from
    metadata" and returns the duration, whether there is one, and an
    error. *)
Variable TryGetTTL : gmap string string -> Duration * bool * option error.

Definition fmt_Sprintf_s (e : value) : string :=
  match e with
  | VString s => s
  | _ => fmt_Sprintf_other e
  end.

Definition NewCloudEventsEnvelope
    (id source eventType subject topic pubsubName dataContentType : string)
    (data : list byte) (traceID : string) : gmap string value :=
  let id := if is_empty id then uuid_New else id in
  let source := if is_empty source then DefaultCloudEventSource else source in
  let eventType := if is_empty eventType then DefaultCloudEventType else eventType in
  let dataContentType :=
    if is_empty dataContentType then DefaultCloudEventDataContentType
    else dataContentType in
  let '(j, err) := jsoniter_Unmarshal data in
  let dataContentType :=
    match err with
    | None => "application/json"
    | Some _ => dataContentType
    end in
  list_to_map
    [ ("id", VString id);
      ("specversion", VString CloudEventsSpecVersion);
      ("datacontenttype", VString dataContentType);
      ("source", VString source);
      ("type", VString eventType);
      ("subject", VString subject);
      ("topic", VString topic);
      ("pubsubname", VString pubsubName);
      ("data", VString (of_bytes data));
      ("traceid", VString traceID) ].

(** The map is shared with the caller: the updated map is returned.
    Assigning to an entry of a [nil] map panics. *)
Definition setTraceContext (cloudEvent : option (gmap string value)) (traceID : string)
    : outcome (option (gmap string value)) :=
  match cloudEvent with
  | None => Panics "assignment to entry in nil map"
  | Some m => Returns (Some (<[TraceIDField := VString traceID]> m))
  end.

Definition FromCloudEvent (cloudEvent : list byte) (traceID : string)
    : outcome (option (gmap string value) * option error) :=
  let '(m, err) := jsoniter_Unmarshal_map cloudEvent in
  match err with
  | Some e => Returns (m, Some e)
  | None =>
      match setTraceContext m traceID with
      | Panics msg => Panics msg
      | Returns m => Returns (m, None)
      end
  end.

(** [now] is the reading of [time.Now()]. *)
Definition HasExpired (now : Time) (cloudEvent : gmap string value) : bool :=
  match cloudEvent !! expirationField with
  | Some e =>
      if differs_from_empty_string e then
        match time_Parse_RFC3339 (fmt_Sprintf_s e) with
        | None => false
        | Some expiration => Before (UTC expiration) (UTC now)
        end
      else false
  | None => false
  end.

(** [cloudEvent] is the caller's map, [None] when it is [nil]; the call
    writes into it, and the map after the call is returned.  Assigning
    to an entry of a [nil] map panics. *)
Definition ApplyMetadata (now : Time) (cloudEvent : option (gmap string value))
    (componentFeatures : list Feature) (metadata : gmap string string)
    : outcome (option (gmap string value)) :=
  let '(ttl, hasTTL, _) := TryGetTTL metadata in
  if hasTTL && negb (IsPresent FeatureMessageTTL componentFeatures) then
    let now := UTC now in
    let expiration := Add now ttl in
    match cloudEvent with
    | None => Panics "assignment to entry in nil map"
    | Some m =>
        Returns (Some (<[expirationField := VString (time_Format_RFC3339 expiration)]> m))
    end
  else Returns cloudEvent.

End Envelope.

End PubSub.

(** ** Helpers for the statements *)

Module Statements.
Import GoString PathRegexp DigitalTwins.

(** The configuration properties [Init] requires, in the order
    [getAzureDigitalTwinsMetadata] reads them. *)
Definition required_fields : list string :=
  ["clientId"; "clientSecret"; "tenantId"; "adtInstanceUrl"].

Definition missing (props : gmap string string) (k : string) : bool :=
  match present_nonempty props k with
  | Some _ => false
  | None => true
  end.

Definition first_missing (props : gmap string string) : option string :=
  List.find (missing props) required_fields.

(** What the first pass does to one operation. *)
Definition first_pass_op (o : jsonPatchOperation) : jsonPatchOperation :=
  let matches := FindStringSubmatch (Path o) in
  with_Path ("/" +:+ matches !!! 2%nat) (with_TwinID (matches !!! 1%nat) o).

(** The update call of the second pass for one operation. *)
Definition call_for (d : AzureDigitalTwins) (o : jsonPatchOperation) : UpdateCall :=
  new_call d (TwinID o) [o].

(** [c] occurs in [s]. *)
Fixpoint contains (c : ascii) (s : string) : bool :=
  match s with
  | EmptyString => false
  | String c' s' => Ascii.eqb c' c || contains c s'
  end.

(** What every update call of a binding [d] has in common. *)
Definition configured_by (d : AzureDigitalTwins) (c : UpdateCall) : Prop :=
  call_baseURI c = adtInstanceURL d
  /\ call_clientID c = clientID d
  /\ call_clientSecret c = clientSecret d
  /\ call_tenantID c = tenantID d
  /\ call_resource c = "https://digitaltwins.azure.net"
  /\ call_ifMatch c = "*"
  /\ call_traceparent c = ""
  /\ call_tracestate c = "".

(** The ten fields of a new envelope. *)
Definition envelope_fields : list string :=
  ["id"; "specversion"; "datacontenttype"; "source"; "type"; "subject";
   "topic"; "pubsubname"; "data"; "traceid"].

End Statements.

(** ** Sample inputs and stand-ins for the library calls *)

Module Samples.
Import GoString DigitalTwins PubSub.

Definition quoted (s : string) : string :=
  String "034"%char (s +:+ String "034"%char "").

Definition scalar_json (v : value) : string :=
  match v with
  | VBool true => "true"
  | VBool false => "false"
  | VNumber literal => literal
  | VString s => quoted s
  | _ => "null"
  end.

(** The JSON text of one operation with a scalar value. *)
Definition op_json (o : jsonPatchOperation) : string :=
  "{" +:+ quoted "op" +:+ ":" +:+ quoted (Op o) +:+ ","
      +:+ quoted "path" +:+ ":" +:+ quoted (Path o) +:+ ","
      +:+ quoted "value" +:+ ":" +:+ scalar_json (Value o) +:+ "}".

Fixpoint ops_json (ops : list jsonPatchOperation) : string :=
  match ops with
  | [] => ""
  | [o] => op_json o
  | o :: rest => op_json o +:+ "," +:+ ops_json rest
  end.

Definition batch_json (ops : list jsonPatchOperation) : string :=
  "[" +:+ ops_json ops +:+ "]".

Definition replace_op (path literal : string) : jsonPatchOperation :=
  {| Op := "replace"; Path := path; Value := VNumber literal; TwinID := "" |}.

(** Three operations on two twins, interleaved. *)
Definition interleaved_batch : list jsonPatchOperation :=
  [replace_op "/t1/a" "1"; replace_op "/t2/b" "2"; replace_op "/t1/c" "3"].

(** A valid operation followed by one whose path has a single segment. *)
Definition one_bad_batch : list jsonPatchOperation :=
  [replace_op "/t1/a" "1"; replace_op "/property1" "2"].

Definition single_batch : list jsonPatchOperation :=
  [replace_op "/t1/a" "1"].

(** A decoder that knows the sample batches by their JSON text and
    rejects every other input. *)
Definition sample_json_Unmarshal (data : list byte) : option (list jsonPatchOperation) :=
  List.find (fun ops => String.eqb (of_bytes data) (batch_json ops))
    [interleaved_batch; one_bad_batch; single_batch].

Definition sample_json_Marshal (ops : list jsonPatchOperation) : option string :=
  Some (batch_json ops).

(** A service that has no twin [t2]. *)
Definition sample_update_outcome (c : UpdateCall) : option error :=
  if String.eqb (call_id c) "t2" then Some "404 Not Found" else None.

Definition sample_binding : AzureDigitalTwins :=
  {| clientID := "app"; clientSecret := "secret"; tenantID := "tenant";
     adtInstanceURL := "https://example.api.weu.digitaltwins.azure.net" |}.

Definition request (ops : list jsonPatchOperation) (metadata : gmap string string)
    : InvokeRequest :=
  {| req_Data := to_bytes (batch_json ops); req_Metadata := metadata |}.

(** A request that names its twin under the key [twinId]. *)
Definition twinId_request : InvokeRequest :=
  request single_batch {["twinId" := "t9"]}.

(** A request that names its twin under the key [twinID]. *)
Definition twinID_request : InvokeRequest :=
  request interleaved_batch {["twinID" := "t9"]}.

Definition empty_binding : AzureDigitalTwins :=
  {| clientID := ""; clientSecret := ""; tenantID := ""; adtInstanceURL := "" |}.

(** A configuration without [tenantId]. *)
Definition incomplete_metadata : Metadata :=
  {| Name := "twins";
     Properties := <["clientId" := "app"]> (<["clientSecret" := "secret"]>
                   (<["adtInstanceUrl" := "https://example"]> ∅)) |}.

(** A map decoder that knows the JSON texts [null] and [{}]; on other
    inputs it reports an error.  Go's decoders set a map to [nil] and
    return no error for the JSON text [null]. *)
Definition sample_jsoniter_Unmarshal_map (data : list byte)
    : option (gmap string value) * option error :=
  if String.eqb (of_bytes data) "null" then (None, None)
  else if String.eqb (of_bytes data) "{}" then (Some ∅, None)
  else (Some ∅, Some "ReadMapCB: expect { or n").

(** A decoder into [interface{}] that accepts the JSON text [{}]. *)
Definition sample_jsoniter_Unmarshal (data : list byte) : value * option error :=
  if String.eqb (of_bytes data) "{}" then (VMap [], None)
  else (VNil, Some "readObjectStart: expect { or n").

(** A parser that knows two spellings of the first instant of the year
    2000. *)
Definition sample_time_Parse_RFC3339 (s : string) : option Time :=
  if String.eqb s "2000-01-01T00:00:00Z"
  then Some {| unixNano := 946684800000000000; zoneOffset := 0 |}
  else if String.eqb s "2000-01-01T01:00:00+01:00"
  then Some {| unixNano := 946684800000000000; zoneOffset := 3600 |}
  else None.

Definition sample_fmt_Sprintf_other (e : value) : string :=
  match e with
  | VNil => "%!s(<nil>)"
  | VBool true => "%!s(bool=true)"
  | VBool false => "%!s(bool=false)"
  | VNumber literal => "%!s(float64=" +:+ literal +:+ ")"
  | VString s => s
  | VSlice _ => "[]"
  | VMap _ => "map[]"
  end.

(** The first instant of the year 2021, read in a zone one hour east of
    UTC. *)
Definition sample_now : Time :=
  {| unixNano := 1609459200000000000; zoneOffset := 3600 |}.

(** A formatter that knows the instant ten seconds after [sample_now],
    in UTC. *)
Definition sample_time_Format_RFC3339 (t : Time) : string :=
  if ((unixNano t =? 1609459210000000000) && (zoneOffset t =? 0))%Z
  then "2021-01-01T00:00:10Z"
  else "0001-01-01T00:00:00Z".

Definition sample_FeatureMessageTTL : Feature := "MESSAGE_TTL".

(** A reader of the TTL that knows the value ["10"], ten seconds. *)
Definition sample_TryGetTTL (props : gmap string string)
    : Duration * bool * option error :=
  match present_nonempty props "ttlInSeconds" with
  | Some val =>
      if String.eqb val "10" then (10000000000%Z, true, None)
      else (0%Z, false, Some "ttlInSeconds value must be a valid integer")
  | None => (0%Z, false, None)
  end.

(** A parser that knows the instant [sample_time_Format_RFC3339]
    writes. *)
Definition sample_time_Parse_RFC3339_2021 (s : string) : option Time :=
  if String.eqb s "2021-01-01T00:00:10Z"
  then Some {| unixNano := 1609459210000000000; zoneOffset := 0 |}
  else sample_time_Parse_RFC3339 s.

(** One minute after [sample_now], read in UTC. *)
Definition sample_later : Time :=
  {| unixNano := 1609459260000000000; zoneOffset := 0 |}.

(** A map decoder that knows one envelope, which expired in 2000. *)
Definition expired_envelope_json : string :=
  "{" +:+ quoted "id" +:+ ":" +:+ quoted "A1" +:+ ","
      +:+ quoted "expiration" +:+ ":" +:+ quoted "2000-01-01T00:00:00Z" +:+ "}".

Definition expired_envelope : gmap string value :=
  <["id" := VString "A1"]> {["expiration" := VString "2000-01-01T00:00:00Z"]}.

Definition envelope_jsoniter_Unmarshal_map (data : list byte)
    : option (gmap string value) * option error :=
  if String.eqb (of_bytes data) expired_envelope_json then (Some expired_envelope, None)
  else sample_jsoniter_Unmarshal_map data.

(** A decoder that also knows the empty batch. *)
Definition empty_aware_json_Unmarshal (data : list byte)
    : option (list jsonPatchOperation) :=
  if String.eqb (of_bytes data) "[]" then Some []
  else sample_json_Unmarshal data.

(** A complete configuration. *)
Definition complete_metadata : Metadata :=
  {| Name := "twins";
     Properties := <["tenantId" := "tenant"]> (Properties incomplete_metadata) |}.

End Samples.

(** * Part II: properties *)

(** ** The path pattern *)

Section PathRegexpFacts.
Import GoString PathRegexp.

Example FindStringSubmatch_twin_property :
  FindStringSubmatch "/myTwinId/property1"
  = ["/myTwinId/property1"; "myTwinId"; "property1"].
Proof. reflexivity. Qed.

Example FindStringSubmatch_nested :
  FindStringSubmatch "/t/a/b/" = ["/t/a/b/"; "t"; "a/b/"].
Proof. reflexivity. Qed.

Example FindStringSubmatch_leading_slash :
  FindStringSubmatch "//a/b" = ["//a/b"; "/a"; "b"].
Proof. reflexivity. Qed.

Example FindStringSubmatch_one_segment :
  FindStringSubmatch "/property1" = [].
Proof. reflexivity. Qed.

Example FindStringSubmatch_empty_rest :
  FindStringSubmatch "/t/" = [].
Proof. reflexivity. Qed.

Example FindStringSubmatch_newline :
  FindStringSubmatch (String slash (String "t" (String slash (String newline "b")))) = [].
Proof. reflexivity. Qed.

Lemma dot_plus_spec s : dot_plus s = true <-> s <> "" /\ dot_star s = true.
Proof.
  destruct s as [|c s]; simpl.
  - split; [discriminate | intros [H _]; congruence].
  - split; [intros H; split; [discriminate | exact H] | intros [_ H]; exact H].
Qed.

Lemma lazy_groups_sound s : forall started g1 g2,
  lazy_groups started s = Some (g1, g2) ->
  s = g1 +:+ String slash g2
  /\ dot_star g1 = true /\ dot_plus g2 = true
  /\ (started = false -> g1 <> "").
Proof.
  induction s as [|c s IH]; intros started g1 g2; simpl; [discriminate|].
  destruct (started && Ascii.eqb c slash && dot_plus s) eqn:Hstop.
  - intros [= <- <-].
    apply andb_true_iff in Hstop as [Hstop Hplus].
    apply andb_true_iff in Hstop as [Hstarted Hc].
    apply Ascii.eqb_eq in Hc. subst c.
    repeat split; auto. intros ->; discriminate.
  - destruct (dot c) eqn:Hdot; [|discriminate].
    destruct (lazy_groups true s) as [[h1 h2]|] eqn:Hrec; [|discriminate].
    intros [= <- <-].
    destruct (IH _ _ _ Hrec) as (-> & Hh1 & Hh2 & _).
    repeat split; auto.
    simpl. rewrite Hdot, Hh1. reflexivity.
Qed.

Lemma lazy_groups_complete g1 : forall started g2,
  dot_star g1 = true -> dot_plus g2 = true ->
  (started = true \/ g1 <> "") ->
  exists h1 h2,
    lazy_groups started (g1 +:+ String slash g2) = Some (h1, h2)
    /\ (String.length h1 <= String.length g1)%nat.
Proof.
  induction g1 as [|c g1 IH]; intros started g2 Hg1 Hg2 Hne.
  - destruct Hne as [-> | Hne]; [|congruence].
    exists "", g2. simpl. rewrite Hg2. simpl. split; [reflexivity | lia].
  - simpl in Hg1. apply andb_true_iff in Hg1 as [Hc Hg1].
    simpl.
    destruct (started && Ascii.eqb c slash && dot_plus (g1 +:+ String slash g2)).
    + eexists _, _. split; [reflexivity | simpl; lia].
    + rewrite Hc.
      destruct (IH true g2 Hg1 Hg2 (or_introl eq_refl)) as (h1 & h2 & -> & Hlen).
      eexists _, _. split; [reflexivity | simpl; lia].
Qed.

Lemma append_slash_inj g1 : forall h1 g2 h2,
  g1 +:+ String slash g2 = h1 +:+ String slash h2 ->
  String.length g1 = String.length h1 ->
  g1 = h1 /\ g2 = h2.
Proof.
  induction g1 as [|c g1 IH]; intros [|c' h1] g2 h2; simpl; try discriminate.
  - intros [= ->]. auto.
  - intros [= -> Heq] [= Hlen]. destruct (IH _ _ _ Heq Hlen) as [-> ->]. auto.
Qed.

(** The matcher returns the decomposition with the shortest twin id, and
    only a decomposition. *)
Lemma FindStringSubmatch_groups path twin rest :
  FindStringSubmatch path = [path; twin; rest]
  <-> splits path twin rest
      /\ forall twin' rest', splits path twin' rest' ->
           (String.length twin <= String.length twin')%nat.
Proof.
  unfold FindStringSubmatch, splits. split.
  - destruct path as [|c s]; [discriminate|].
    destruct (Ascii.eqb c slash) eqn:Hc; [|discriminate].
    apply Ascii.eqb_eq in Hc. subst c.
    destruct (lazy_groups false s) as [[g1 g2]|] eqn:Hm; [|discriminate].
    intros [= <- <-].
    destruct (lazy_groups_sound _ _ _ _ Hm) as (-> & Hg1 & Hg2 & Hne).
    apply dot_plus_spec in Hg2 as [Hg2 Hg2'].
    split; [repeat split; auto|].
    intros twin' rest' ([= Heq] & Hn1 & Hn2 & Hd1 & Hd2).
    destruct (lazy_groups_complete twin' false rest' Hd1) as (h1 & h2 & Hm' & Hlen);
      [apply dot_plus_spec; auto | auto |].
    rewrite <- Heq, Hm in Hm'. injection Hm' as <- <-. exact Hlen.
  - intros [(-> & Hn1 & Hn2 & Hd1 & Hd2) Hmin].
    rewrite Ascii.eqb_refl.
    destruct (lazy_groups_complete twin false rest Hd1) as (h1 & h2 & Hm & Hlen);
      [apply dot_plus_spec; auto | auto |].
    rewrite Hm.
    destruct (lazy_groups_sound _ _ _ _ Hm) as (Heq & Hh1 & Hh2 & Hne).
    apply dot_plus_spec in Hh2 as [Hh2 Hh2'].
    assert (Hle : (String.length twin <= String.length h1)%nat).
    { apply (Hmin h1 h2). rewrite Heq. repeat split; auto. }
    destruct (append_slash_inj _ _ _ _ Heq) as [-> ->]; [lia|].
    reflexivity.
Qed.

(** The matcher returns nothing exactly on the paths with no
    decomposition. *)
Lemma FindStringSubmatch_nil path :
  FindStringSubmatch path = [] <-> ~ matches_pattern path.
Proof.
  unfold matches_pattern. split.
  - intros Hnil (twin & rest & Hs).
    destruct Hs as (-> & Hn1 & Hn2 & Hd1 & Hd2).
    unfold FindStringSubmatch in Hnil. rewrite Ascii.eqb_refl in Hnil.
    destruct (lazy_groups_complete twin false rest Hd1) as (h1 & h2 & Hm & _);
      [apply dot_plus_spec; auto | auto |].
    rewrite Hm in Hnil. discriminate.
  - intros Hno. unfold FindStringSubmatch.
    destruct path as [|c s]; [reflexivity|].
    destruct (Ascii.eqb c slash) eqn:Hc; [|reflexivity].
    apply Ascii.eqb_eq in Hc. subst c.
    destruct (lazy_groups false s) as [[g1 g2]|] eqn:Hm; [|reflexivity].
    exfalso. apply Hno. exists g1, g2.
    destruct (lazy_groups_sound _ _ _ _ Hm) as (-> & Hg1 & Hg2 & Hne).
    apply dot_plus_spec in Hg2 as [Hg2 Hg2'].
    unfold splits. repeat split; auto.
Qed.

(** The result has no element or three. *)
Lemma FindStringSubmatch_cases path :
  FindStringSubmatch path = []
  \/ exists twin rest, FindStringSubmatch path = [path; twin; rest].
Proof.
  unfold FindStringSubmatch.
  destruct path as [|c s]; [auto|].
  destruct (Ascii.eqb c slash); [|auto].
  destruct (lazy_groups false s) as [[g1 g2]|]; [right; eauto | auto].
Qed.

Lemma FindStringSubmatch_matches path :
  matches_pattern path ->
  exists twin rest,
    FindStringSubmatch path = [path; twin; rest]
    /\ splits path twin rest
    /\ forall twin' rest', splits path twin' rest' ->
         (String.length twin <= String.length twin')%nat.
Proof.
  intros Hm.
  destruct (FindStringSubmatch_cases path) as [Hnil | (twin & rest & Heq)].
  - apply FindStringSubmatch_nil in Hnil. contradiction.
  - exists twin, rest. split; [exact Heq|].
    apply FindStringSubmatch_groups. exact Heq.
Qed.

End PathRegexpFacts.

(** ** The binding *)

Section BindingFacts.
Import GoString PathRegexp DigitalTwins Statements.

Variable json_Unmarshal : list byte -> option (list jsonPatchOperation).
Variable json_Marshal : list jsonPatchOperation -> option string.
Variable update_outcome : UpdateCall -> option error.

Local Abbreviation first_pass := DigitalTwins.first_pass.
Local Abbreviation second_pass := (DigitalTwins.second_pass json_Marshal update_outcome).
Local Abbreviation patchSingleTwin := (DigitalTwins.patchSingleTwin json_Unmarshal update_outcome).
Local Abbreviation patchMultipleTwin :=
  (DigitalTwins.patchMultipleTwin json_Unmarshal json_Marshal update_outcome).
Local Abbreviation Invoke := (DigitalTwins.Invoke json_Unmarshal json_Marshal update_outcome).

Lemma first_pass_op_stripped o twin rest :
  FindStringSubmatch (Path o) = [Path o; twin; rest] ->
  first_pass_op o = stripped twin rest o.
Proof. intros H. unfold first_pass_op. rewrite H. reflexivity. Qed.

(** [l[i] = f(l[i])] at the index that follows [visited]. *)
Lemma alter_at_length {A : Type} (f : A -> A) (visited : list A) x pending :
  alter f (length visited) (visited ++ x :: pending) = visited ++ f x :: pending.
Proof.
  induction visited as [|y visited IH]; simpl; [reflexivity|].
  f_equal. exact IH.
Qed.

(** The first pass rewrites the operations one by one, from left to
    right, when every path matches. *)
Lemma first_pass_all_match pending : forall visited,
  Forall (fun o => matches_pattern (Path o)) pending ->
  first_pass (length visited) pending (visited ++ pending)
  = Some (visited ++ map first_pass_op pending).
Proof.
  induction pending as [|v pending IH]; intros visited Hall; simpl.
  - reflexivity.
  - apply Forall_cons in Hall as [Hv Hall].
    destruct (FindStringSubmatch_matches _ Hv) as (twin & rest & Hm & _).
    rewrite Hm. simpl.
    rewrite !alter_at_length.
    specialize (IH (visited ++ [first_pass_op v]) Hall).
    rewrite length_app, Nat.add_1_r, <- !app_assoc in IH. simpl in IH.
    rewrite (first_pass_op_stripped _ _ _ Hm) in *.
    exact IH.
Qed.

(** One path that does not match stops the first pass. *)
Lemma first_pass_some_mismatch pending : forall i operationDoc,
  Exists (fun o => ~ matches_pattern (Path o)) pending ->
  first_pass i pending operationDoc = None.
Proof.
  induction pending as [|v pending IH]; intros i operationDoc Hex; simpl.
  - inversion Hex.
  - destruct (FindStringSubmatch_cases (Path v)) as [-> | (twin & rest & Hm)];
      [reflexivity|].
    rewrite Hm. simpl.
    apply Exists_cons in Hex as [Hv | Hex].
    + exfalso. apply Hv. exists twin, rest.
      apply FindStringSubmatch_groups. exact Hm.
    + apply IH. exact Hex.
Qed.

(** The second pass sends one call per operation while marshalling
    succeeds. *)
Lemma second_pass_calls d operationDoc : forall sent,
  Forall (fun o => json_Marshal [o] <> None) operationDoc ->
  second_pass d operationDoc sent
  = ((None, None), sent ++ map (call_for d) operationDoc).
Proof.
  induction operationDoc as [|v rest IH]; intros sent Hall; simpl.
  - unfold ret. rewrite app_nil_r. reflexivity.
  - apply Forall_cons in Hall as [Hv Hall].
    destruct (json_Marshal [v]) eqn:Hb; [|congruence].
    unfold bind, client_Update. rewrite IH by exact Hall.
    rewrite <- app_assoc. reflexivity.
Qed.

Lemma second_pass_result d operationDoc : forall sent,
  fst (second_pass d operationDoc sent) = (None, None).
Proof.
  induction operationDoc as [|v rest IH]; intros sent; simpl.
  - reflexivity.
  - destruct (json_Marshal [v]); [|reflexivity].
    unfold bind, client_Update. apply IH.
Qed.

Lemma patchSingleTwin_result d twinID req sent :
  fst (patchSingleTwin d twinID req sent) = (None, None).
Proof.
  unfold DigitalTwins.patchSingleTwin.
  destruct (json_Unmarshal (req_Data req)); reflexivity.
Qed.

Lemma patchMultipleTwin_result d req sent :
  fst (patchMultipleTwin d req sent) = (None, None).
Proof.
  unfold DigitalTwins.patchMultipleTwin.
  destruct (json_Unmarshal (req_Data req)) as [ops|]; [|reflexivity].
  destruct (first_pass 0 ops ops); [|reflexivity].
  apply second_pass_result.
Qed.

(** For each twin, the calls addressed to it carry the operations of
    that twin in input order. *)
Lemma calls_of_one_twin d twin ops :
  concat (map call_patchDocument
            (filter (fun c => call_id c = twin) (map (call_for d) ops)))
  = filter (fun o => TwinID o = twin) ops.
Proof.
  induction ops as [|o ops IH]; [reflexivity|].
  cbn [map]. rewrite !filter_cons. cbn [call_for new_call call_id].
  destruct (decide (TwinID o = twin)); cbn; rewrite IH; reflexivity.
Qed.

End BindingFacts.

Section PresentNonempty.
Import GoString PathRegexp.

Lemma present_nonempty_Some m k val :
  present_nonempty m k = Some val <-> m !! k = Some val /\ val <> "".
Proof.
  unfold present_nonempty.
  destruct (m !! k) as [v|]; [|split; [discriminate | intros [? _]; discriminate]].
  destruct v as [|c v]; simpl.
  - split; [discriminate | intros [[= <-] H]; congruence].
  - split; [intros [= <-]; split; [reflexivity | discriminate] | intros [[= <-] _]; reflexivity].
Qed.

Lemma present_nonempty_None m k :
  present_nonempty m k = None <-> m !! k = None \/ m !! k = Some "".
Proof.
  unfold present_nonempty.
  destruct (m !! k) as [v|]; [|split; auto].
  destruct v as [|c v]; simpl.
  - split; auto.
  - split; [discriminate | intros [H | H]; discriminate].
Qed.

Lemma matches_pattern_found path :
  matches_pattern path <-> FindStringSubmatch path <> [].
Proof.
  split.
  - intros Hm Hnil. apply FindStringSubmatch_nil in Hnil. contradiction.
  - intros Hne.
    destruct (FindStringSubmatch_cases path) as [Hnil | (twin & rest & Heq)];
      [contradiction|].
    exists twin, rest. apply FindStringSubmatch_groups. exact Heq.
Qed.

End PresentNonempty.

Section BindingClaims.
Import GoString PathRegexp DigitalTwins Statements.

Variable json_Unmarshal : list byte -> option (list jsonPatchOperation).
Variable json_Marshal : list jsonPatchOperation -> option string.
Variable update_outcome : UpdateCall -> option error.

Local Abbreviation patchSingleTwin := (DigitalTwins.patchSingleTwin json_Unmarshal update_outcome).
Local Abbreviation patchMultipleTwin :=
  (DigitalTwins.patchMultipleTwin json_Unmarshal json_Marshal update_outcome).
Local Abbreviation Invoke := (DigitalTwins.Invoke json_Unmarshal json_Marshal update_outcome).

(** C1, as amended.  For a batch that decodes to operations whose paths
    all match [/<twinId>/<rest>] and that can be marshalled again,
    [patchMultipleTwin] sends exactly one update call per operation, in
    input order.  The call of an operation is addressed to its twin id,
    the shortest first segment of its path, and carries that one
    operation with the twin id recorded and the path replaced by [/]
    followed by the rest.  The operations are not merged into per-twin
    lists; read per twin, the calls carry the operations of that twin in
    input order. *)
Theorem patchMultipleTwin_one_call_per_operation d req ops sent :
  json_Unmarshal (req_Data req) = Some ops ->
  Forall (fun o => matches_pattern (Path o)) ops ->
  Forall (fun o => json_Marshal [first_pass_op o] <> None) ops ->
  exists calls,
    patchMultipleTwin d req sent = ((None, None), sent ++ calls)
    /\ Forall2 (fun o c => exists twin rest,
           splits (Path o) twin rest
           /\ (forall twin' rest', splits (Path o) twin' rest' ->
                 (String.length twin <= String.length twin')%nat)
           /\ c = new_call d twin [stripped twin rest o]) ops calls
    /\ forall twin,
         concat (map call_patchDocument (filter (fun c => call_id c = twin) calls))
         = filter (fun o => TwinID o = twin) (map first_pass_op ops).
Proof.
  intros Hdec Hall Hmarshal.
  exists (map (call_for d) (map first_pass_op ops)).
  split; [|split].
  - unfold DigitalTwins.patchMultipleTwin. rewrite Hdec.
    pose proof (first_pass_all_match ops [] Hall) as Hpass.
    simpl in Hpass. rewrite Hpass.
    apply second_pass_calls.
    apply Forall_map. exact Hmarshal.
  - clear Hdec Hmarshal.
    induction Hall as [|o ops Ho Hall IH]; simpl; constructor; [|exact IH].
    destruct (FindStringSubmatch_matches _ Ho) as (twin & rest & Hm & Hs & Hmin).
    exists twin, rest. repeat split; try apply Hs; [exact Hmin|].
    rewrite (first_pass_op_stripped _ _ _ Hm). reflexivity.
  - intros twin. apply calls_of_one_twin.
Qed.

(** C2.  When the batch decodes to operations one of which has a path
    that does not match the pattern, the first pass fails and
    [patchMultipleTwin] returns without a single update call, also for
    the operations whose paths match. *)
Theorem patchMultipleTwin_rejects_whole_batch d req ops sent :
  json_Unmarshal (req_Data req) = Some ops ->
  Exists (fun o => ~ matches_pattern (Path o)) ops ->
  first_pass 0 ops ops = None
  /\ patchMultipleTwin d req sent = ((None, None), sent).
Proof.
  intros Hdec Hex.
  pose proof (first_pass_some_mismatch ops 0%nat ops Hex) as Hfail.
  split; [exact Hfail|].
  unfold DigitalTwins.patchMultipleTwin. rewrite Hdec, Hfail. reflexivity.
Qed.

(** C3, as amended.  The metadata key is [twinID].  [Invoke] runs
    [patchSingleTwin] exactly when the request metadata has a non-empty
    value under [twinID], and [patchMultipleTwin] otherwise.
    [patchSingleTwin] decodes the raw batch and, when it decodes, sends
    the operations as one update call to that twin; it sends nothing
    when the batch does not decode. *)
Theorem Invoke_selects_mode_by_twinID d req :
  (forall val, req_Metadata req !! "twinID" = Some val -> val <> "" ->
     Invoke d req = patchSingleTwin d val req)
  /\ (req_Metadata req !! "twinID" = None \/ req_Metadata req !! "twinID" = Some "" ->
      Invoke d req = patchMultipleTwin d req)
  /\ (forall val ops sent, json_Unmarshal (req_Data req) = Some ops ->
        patchSingleTwin d val req sent = ((None, None), sent ++ [new_call d val ops]))
  /\ (forall val sent, json_Unmarshal (req_Data req) = None ->
        patchSingleTwin d val req sent = ((None, None), sent)).
Proof.
  repeat split.
  - intros val Hval Hne. unfold DigitalTwins.Invoke.
    rewrite (proj2 (present_nonempty_Some _ _ _) (conj Hval Hne)). reflexivity.
  - intros Hno. unfold DigitalTwins.Invoke.
    rewrite (proj2 (present_nonempty_None _ _) Hno). reflexivity.
  - intros val ops sent Hdec. unfold DigitalTwins.patchSingleTwin.
    rewrite Hdec. reflexivity.
  - intros val sent Hdec. unfold DigitalTwins.patchSingleTwin.
    rewrite Hdec. reflexivity.
Qed.

(** C4.  Whatever the decoder, the marshaller and the service answer,
    and whatever was sent before, [Invoke] returns a [nil] response and
    a [nil] error. *)
Theorem Invoke_returns_nil_nil d req sent :
  fst (Invoke d req sent) = (None, None).
Proof.
  unfold DigitalTwins.Invoke.
  destruct (present_nonempty (req_Metadata req) "twinID").
  - apply patchSingleTwin_result.
  - apply patchMultipleTwin_result.
Qed.

End BindingClaims.

Section BindingOnSamples.
Import GoString PathRegexp DigitalTwins Statements Samples.

Local Abbreviation sample_patchSingleTwin :=
  (DigitalTwins.patchSingleTwin sample_json_Unmarshal sample_update_outcome).
Local Abbreviation sample_patchMultipleTwin :=
  (DigitalTwins.patchMultipleTwin sample_json_Unmarshal sample_json_Marshal
     sample_update_outcome).
Local Abbreviation sample_Invoke :=
  (DigitalTwins.Invoke sample_json_Unmarshal sample_json_Marshal sample_update_outcome).

Ltac sample_paths :=
  repeat constructor;
  try (apply matches_pattern_found; vm_compute; discriminate);
  try (intros Hm; apply matches_pattern_found in Hm; apply Hm; vm_compute; reflexivity);
  try discriminate.

(** The interleaved batch goes out as three calls, in input order, the
    second of which the service refuses. *)
Example sample_patchMultipleTwin_interleaved :
  sample_patchMultipleTwin sample_binding (request interleaved_batch ∅) []
  = ((None, None),
     [ new_call sample_binding "t1" [stripped "t1" "a" (replace_op "/t1/a" "1")];
       new_call sample_binding "t2" [stripped "t2" "b" (replace_op "/t2/b" "2")];
       new_call sample_binding "t1" [stripped "t1" "c" (replace_op "/t1/c" "3")] ]).
Proof. vm_compute. reflexivity. Qed.

Lemma patchMultipleTwin_one_call_per_operation_witness :
  exists calls,
    sample_patchMultipleTwin sample_binding (request interleaved_batch ∅) []
    = ((None, None), [] ++ calls)
    /\ Forall2 (fun o c => exists twin rest,
           splits (Path o) twin rest
           /\ (forall twin' rest', splits (Path o) twin' rest' ->
                 (String.length twin <= String.length twin')%nat)
           /\ c = new_call sample_binding twin [stripped twin rest o])
         interleaved_batch calls
    /\ forall twin,
         concat (map call_patchDocument (filter (fun c => call_id c = twin) calls))
         = filter (fun o => TwinID o = twin) (map first_pass_op interleaved_batch).
Proof.
  apply (patchMultipleTwin_one_call_per_operation
           sample_json_Unmarshal sample_json_Marshal sample_update_outcome
           sample_binding (request interleaved_batch ∅) interleaved_batch []).
  - vm_compute. reflexivity.
  - sample_paths.
  - sample_paths.
Defined.

(** C1, as the specification states it, fails: every path of the
    interleaved batch matches, yet the calls sent are not the per-twin
    lists, one call per twin; three calls go out for two twins. *)
Lemma patchMultipleTwin_does_not_group :
  sample_json_Unmarshal (req_Data (request interleaved_batch ∅)) = Some interleaved_batch
  /\ Forall (fun o => matches_pattern (Path o)) interleaved_batch
  /\ calls_of (sample_patchMultipleTwin sample_binding (request interleaved_batch ∅))
     <> grouped_calls sample_binding (map first_pass_op interleaved_batch)
  /\ length (calls_of (sample_patchMultipleTwin sample_binding
                         (request interleaved_batch ∅))) = 3%nat
  /\ length (grouped_calls sample_binding (map first_pass_op interleaved_batch)) = 2%nat.
Proof.
  split; [vm_compute; reflexivity|].
  split; [sample_paths|].
  split; [vm_compute; discriminate|].
  split; vm_compute; reflexivity.
Qed.

Lemma patchMultipleTwin_rejects_whole_batch_witness :
  first_pass 0 one_bad_batch one_bad_batch = None
  /\ sample_patchMultipleTwin sample_binding (request one_bad_batch ∅) []
     = ((None, None), []).
Proof.
  apply (patchMultipleTwin_rejects_whole_batch
           sample_json_Unmarshal sample_json_Marshal sample_update_outcome
           sample_binding (request one_bad_batch ∅) one_bad_batch []).
  - vm_compute. reflexivity.
  - apply Exists_cons_tl, Exists_cons_hd.
    intros Hm. apply matches_pattern_found in Hm. apply Hm. vm_compute. reflexivity.
Defined.

(** C3, as the specification states it, fails: a request whose metadata
    names twin [t9] under the key [twinId] is handled by
    [patchMultipleTwin]; the call goes to twin [t1] of the path, not to
    [t9]. *)
Lemma Invoke_ignores_key_twinId :
  req_Metadata twinId_request !! "twinId" = Some "t9"
  /\ sample_Invoke sample_binding twinId_request
     = sample_patchMultipleTwin sample_binding twinId_request
  /\ calls_of (sample_Invoke sample_binding twinId_request)
     = [new_call sample_binding "t1" [stripped "t1" "a" (replace_op "/t1/a" "1")]]
  /\ calls_of (sample_Invoke sample_binding twinId_request)
     <> calls_of (sample_patchSingleTwin sample_binding "t9" twinId_request).
Proof.
  split; [vm_compute; reflexivity|].
  split; [reflexivity|].
  split; [vm_compute; reflexivity|].
  vm_compute. discriminate.
Qed.

(** With the key [twinID] the whole batch goes to the named twin in one
    call, paths untouched. *)
Example sample_Invoke_single_twin :
  sample_Invoke sample_binding twinID_request []
  = ((None, None), [new_call sample_binding "t9" interleaved_batch]).
Proof. vm_compute. reflexivity. Qed.

End BindingOnSamples.

(** ** Initialisation *)

Section InitFacts.
Import GoString DigitalTwins Statements Samples.

Lemma missing_false props k :
  missing props k = false <-> exists val, props !! k = Some val /\ val <> "".
Proof.
  unfold missing.
  destruct (present_nonempty props k) as [val|] eqn:Hp.
  - apply present_nonempty_Some in Hp. split; [eauto | reflexivity].
  - split; [discriminate|].
    intros (val & Hval & Hne).
    apply present_nonempty_None in Hp as [Hp | Hp]; congruence.
Qed.

Lemma missing_true props k :
  missing props k = true <-> present_nonempty props k = None.
Proof. unfold missing. destruct (present_nonempty props k); split; congruence. Qed.

(** [Init] in terms of the first required field that is absent or
    empty. *)
Lemma Init_first_missing d metadata :
  match first_missing (Properties metadata) with
  | Some k => Init d metadata = (d, Some ("azureDigitalTwins error: missing " +:+ k))
  | None =>
      exists id secret tenant url,
        present_nonempty (Properties metadata) "clientId" = Some id
        /\ present_nonempty (Properties metadata) "clientSecret" = Some secret
        /\ present_nonempty (Properties metadata) "tenantId" = Some tenant
        /\ present_nonempty (Properties metadata) "adtInstanceUrl" = Some url
        /\ Init d metadata
           = ({| clientID := id; clientSecret := secret; tenantID := tenant;
                 adtInstanceURL := url |}, None)
  end.
Proof.
  unfold first_missing, required_fields, Init, getAzureDigitalTwinsMetadata, missing.
  cbn [List.find].
  destruct (present_nonempty (Properties metadata) "clientId") as [id|]; [|reflexivity].
  destruct (present_nonempty (Properties metadata) "clientSecret") as [secret|];
    [|reflexivity].
  destruct (present_nonempty (Properties metadata) "tenantId") as [tenant|];
    [|reflexivity].
  destruct (present_nonempty (Properties metadata) "adtInstanceUrl") as [url|];
    [|reflexivity].
  exists id, secret, tenant, url. repeat split; reflexivity.
Qed.

(** C9.  [Init] returns no error exactly when [clientId],
    [clientSecret], [tenantId] and [adtInstanceUrl] are all present with
    non-empty values, and it then stores the four values.  Otherwise the
    error is "azureDigitalTwins error: missing " followed by the first
    of these names, in this order, that is absent or empty, and the
    binding keeps the configuration it had. *)
Theorem Init_requires_configuration d metadata :
  (snd (Init d metadata) = None
   <-> Forall (fun k => exists val, Properties metadata !! k = Some val /\ val <> "")
         ["clientId"; "clientSecret"; "tenantId"; "adtInstanceUrl"])
  /\ (forall k, first_missing (Properties metadata) = Some k ->
        Init d metadata = (d, Some ("azureDigitalTwins error: missing " +:+ k)))
  /\ (snd (Init d metadata) <> None ->
        exists k, first_missing (Properties metadata) = Some k
                  /\ fst (Init d metadata) = d)
  /\ (snd (Init d metadata) = None ->
        Properties metadata !! "clientId" = Some (clientID (fst (Init d metadata)))
        /\ Properties metadata !! "clientSecret" = Some (clientSecret (fst (Init d metadata)))
        /\ Properties metadata !! "tenantId" = Some (tenantID (fst (Init d metadata)))
        /\ Properties metadata !! "adtInstanceUrl"
           = Some (adtInstanceURL (fst (Init d metadata)))).
Proof.
  pose proof (Init_first_missing d metadata) as HInit.
  destruct (first_missing (Properties metadata)) as [k|] eqn:Hfirst.
  - rewrite HInit. simpl. repeat split; try discriminate.
    + intros Hall. exfalso.
      apply find_some in Hfirst as [Hin Hmiss].
      rewrite List.Forall_forall in Hall.
      destruct (Hall k Hin) as (val & Hval & Hne).
      apply missing_true, present_nonempty_None in Hmiss as [Hmiss | Hmiss]; congruence.
    + intros k' [= <-]. reflexivity.
    + intros _. exists k. auto.
  - destruct HInit as (id & secret & tenant & url & Hid & Hsecret & Htenant & Hurl & ->).
    apply present_nonempty_Some in Hid as [Hid Hid'].
    apply present_nonempty_Some in Hsecret as [Hsecret Hsecret'].
    apply present_nonempty_Some in Htenant as [Htenant Htenant'].
    apply present_nonempty_Some in Hurl as [Hurl Hurl'].
    simpl. repeat split; try discriminate; try congruence; eauto 10.
    intros _. repeat constructor; eauto.
Qed.

(** A configuration without [tenantId] is refused by name. *)
Example Init_incomplete :
  Init empty_binding incomplete_metadata
  = (empty_binding, Some "azureDigitalTwins error: missing tenantId").
Proof. vm_compute. reflexivity. Qed.

(** A complete configuration is stored. *)
Example Init_complete :
  Init empty_binding complete_metadata
  = ({| clientID := "app"; clientSecret := "secret"; tenantID := "tenant";
        adtInstanceURL := "https://example" |}, None).
Proof. vm_compute. reflexivity. Qed.

End InitFacts.

(** ** The envelope *)

Section EnvelopeFacts.
Import GoString PubSub Statements.

Variable uuid_New : string.
Variable jsoniter_Unmarshal : list byte -> value * option error.

Local Abbreviation NewCloudEventsEnvelope :=
  (PubSub.NewCloudEventsEnvelope uuid_New jsoniter_Unmarshal).

(** The envelope as nested updates of the empty map, with the content
    type already chosen. *)
Lemma NewCloudEventsEnvelope_unfold
    id source eventType subject topic pubsubName dataContentType data traceID :
  NewCloudEventsEnvelope id source eventType subject topic pubsubName
    dataContentType data traceID
  = <["id" := VString (if is_empty id then uuid_New else id)]>
    (<["specversion" := VString "1.0"]>
    (<["datacontenttype" :=
         VString (match snd (jsoniter_Unmarshal data) with
                  | None => "application/json"
                  | Some _ => if is_empty dataContentType then "text/plain"
                              else dataContentType
                  end)]>
    (<["source" := VString (if is_empty source then "Dapr" else source)]>
    (<["type" := VString (if is_empty eventType then "com.dapr.event.sent"
                          else eventType)]>
    (<["subject" := VString subject]>
    (<["topic" := VString topic]>
    (<["pubsubname" := VString pubsubName]>
    (<["data" := VString (of_bytes data)]>
    (<["traceid" := VString traceID]> ∅))))))))).
Proof.
  unfold PubSub.NewCloudEventsEnvelope.
  destruct (jsoniter_Unmarshal data) as [j err]. reflexivity.
Qed.

(** C5.  When [jsoniter.Unmarshal] accepts the payload, the envelope's
    [datacontenttype] is "application/json" whatever the caller passed;
    when it does not, [datacontenttype] is the caller's value, or
    "text/plain" when that value is empty. *)
Theorem NewCloudEventsEnvelope_datacontenttype
    id source eventType subject topic pubsubName dataContentType data traceID :
  NewCloudEventsEnvelope id source eventType subject topic pubsubName
    dataContentType data traceID !! "datacontenttype"
  = Some (VString (match snd (jsoniter_Unmarshal data) with
                   | None => "application/json"
                   | Some _ => if is_empty dataContentType then "text/plain"
                               else dataContentType
                   end)).
Proof. rewrite NewCloudEventsEnvelope_unfold. by simplify_map_eq. Qed.

(** C10.  The envelope has exactly the ten fields [id], [specversion],
    [datacontenttype], [source], [type], [subject], [topic],
    [pubsubname], [data] and [traceid].  [specversion] is "1.0";
    [source] and [type] are the caller's values, or "Dapr" and
    "com.dapr.event.sent" when the caller passed the empty string;
    [data] is the payload converted to a string, whether or not the
    payload is JSON; [id] is the caller's value or a new UUID; [subject],
    [topic], [pubsubname] and [traceid] are the caller's values. *)
Theorem NewCloudEventsEnvelope_fields
    id source eventType subject topic pubsubName dataContentType data traceID :
  (forall k,
     is_Some (NewCloudEventsEnvelope id source eventType subject topic pubsubName
                dataContentType data traceID !! k)
     <-> k ∈ envelope_fields)
  /\ NewCloudEventsEnvelope id source eventType subject topic pubsubName
       dataContentType data traceID !! "specversion" = Some (VString "1.0")
  /\ NewCloudEventsEnvelope id source eventType subject topic pubsubName
       dataContentType data traceID !! "source"
     = Some (VString (if is_empty source then "Dapr" else source))
  /\ NewCloudEventsEnvelope id source eventType subject topic pubsubName
       dataContentType data traceID !! "type"
     = Some (VString (if is_empty eventType then "com.dapr.event.sent" else eventType))
  /\ NewCloudEventsEnvelope id source eventType subject topic pubsubName
       dataContentType data traceID !! "data" = Some (VString (of_bytes data))
  /\ NewCloudEventsEnvelope id source eventType subject topic pubsubName
       dataContentType data traceID !! "id"
     = Some (VString (if is_empty id then uuid_New else id))
  /\ NewCloudEventsEnvelope id source eventType subject topic pubsubName
       dataContentType data traceID !! "subject" = Some (VString subject)
  /\ NewCloudEventsEnvelope id source eventType subject topic pubsubName
       dataContentType data traceID !! "topic" = Some (VString topic)
  /\ NewCloudEventsEnvelope id source eventType subject topic pubsubName
       dataContentType data traceID !! "pubsubname" = Some (VString pubsubName)
  /\ NewCloudEventsEnvelope id source eventType subject topic pubsubName
       dataContentType data traceID !! "traceid" = Some (VString traceID).
Proof.
  rewrite NewCloudEventsEnvelope_unfold.
  split; [|repeat split; by simplify_map_eq].
  intros k. rewrite <- elem_of_dom, !dom_insert_L, dom_empty_L.
  unfold envelope_fields. set_solver.
Qed.

End EnvelopeFacts.

(** ** Expiration *)

Section ExpirationFacts.
Import GoString PubSub Statements.

Variable fmt_Sprintf_other : value -> string.
Variable time_Parse_RFC3339 : string -> option Time.
Variable time_Format_RFC3339 : Time -> string.
Variable FeatureMessageTTL : Feature.
Variable TryGetTTL : gmap string string -> Duration * bool * option error.

Local Abbreviation fmt_Sprintf_s := (PubSub.fmt_Sprintf_s fmt_Sprintf_other).
Local Abbreviation HasExpired :=
  (PubSub.HasExpired fmt_Sprintf_other time_Parse_RFC3339).
Local Abbreviation ApplyMetadata :=
  (PubSub.ApplyMetadata time_Format_RFC3339 FeatureMessageTTL TryGetTTL).

Lemma differs_from_empty_string_spec e :
  differs_from_empty_string e = true <-> e <> VString "".
Proof.
  destruct e as [| | |s| |]; simpl; try (split; [discriminate | reflexivity]).
  destruct s; simpl; split; congruence.
Qed.

Lemma IsPresent_elem_of f (features : list Feature) :
  IsPresent f features = true <-> f ∈ features.
Proof.
  unfold IsPresent. rewrite existsb_exists, list_elem_of_In. split.
  - intros (x & Hin & Heq). apply String.eqb_eq in Heq. subst x. exact Hin.
  - intros Hin. exists f. split; [exact Hin | apply String.eqb_refl].
Qed.

(** C6.  [HasExpired] returns [true] exactly when the envelope has an
    [expiration] entry that is not the empty string, whose ["%s"]
    rendering parses as an RFC3339 time, and whose instant is strictly
    before the instant of [now].  It returns [false] when the entry is
    missing, when it is the empty string and when it does not parse. *)
Theorem HasExpired_iff now (cloudEvent : gmap string value) :
  (HasExpired now cloudEvent = true
   <-> exists e expiration,
         cloudEvent !! "expiration" = Some e
         /\ e <> VString ""
         /\ time_Parse_RFC3339 (fmt_Sprintf_s e) = Some expiration
         /\ (unixNano expiration < unixNano now)%Z)
  /\ (cloudEvent !! "expiration" = None -> HasExpired now cloudEvent = false)
  /\ (cloudEvent !! "expiration" = Some (VString "") -> HasExpired now cloudEvent = false)
  /\ (forall e, cloudEvent !! "expiration" = Some e ->
        time_Parse_RFC3339 (fmt_Sprintf_s e) = None ->
        HasExpired now cloudEvent = false).
Proof.
  unfold PubSub.HasExpired, expirationField, Before, UTC. simpl.
  repeat split.
  - destruct (cloudEvent !! "expiration") as [e|]; [|discriminate].
    destruct (differs_from_empty_string e) eqn:He; [|discriminate].
    destruct (time_Parse_RFC3339 (fmt_Sprintf_s e)) as [t|] eqn:Ht; [|discriminate].
    intros Hlt. exists e, t.
    apply differs_from_empty_string_spec in He. apply Z.ltb_lt in Hlt. auto.
  - intros (e & t & -> & He & Ht & Hlt).
    apply differs_from_empty_string_spec in He. rewrite He, Ht.
    apply Z.ltb_lt. exact Hlt.
  - intros ->. reflexivity.
  - intros ->. reflexivity.
  - intros e -> Ht. rewrite Ht. destruct (differs_from_empty_string e); reflexivity.
Qed.

(** C7, as amended.  For an envelope that is not [nil]: when
    [TryGetTTL] finds a TTL and the component's features do not include
    the native message-TTL feature, [ApplyMetadata] sets [expiration] to
    the RFC3339 form of the UTC time [now + ttl] and changes nothing
    else.  In every other case the envelope, [nil] or not, is left as
    it was.  A [nil] envelope into which an expiration is to be written
    makes the call panic. *)
Theorem ApplyMetadata_expiration now (cloudEvent : gmap string value)
    (componentFeatures : list Feature) (metadata : gmap string string) :
  (snd (fst (TryGetTTL metadata)) = true /\ FeatureMessageTTL ∉ componentFeatures ->
     ApplyMetadata now (Some cloudEvent) componentFeatures metadata
     = Returns (Some (<["expiration" :=
           VString (time_Format_RFC3339
                      {| unixNano := unixNano now + fst (fst (TryGetTTL metadata));
                         zoneOffset := 0 |})]> cloudEvent))
     /\ ApplyMetadata now None componentFeatures metadata
        = Panics "assignment to entry in nil map")
  /\ (snd (fst (TryGetTTL metadata)) = false \/ FeatureMessageTTL ∈ componentFeatures ->
      forall envelope : option (gmap string value),
        ApplyMetadata now envelope componentFeatures metadata = Returns envelope).
Proof.
  unfold PubSub.ApplyMetadata.
  destruct (TryGetTTL metadata) as [[ttl hasTTL] err]. simpl.
  split.
  - intros [-> Hnot].
    destruct (IsPresent FeatureMessageTTL componentFeatures) eqn:Hp.
    + apply IsPresent_elem_of in Hp. contradiction.
    + split; reflexivity.
  - intros [-> | Hin] envelope; [reflexivity|].
    apply IsPresent_elem_of in Hin. rewrite Hin, andb_false_r. reflexivity.
Qed.

End ExpirationFacts.

(** ** Existing envelopes *)

Section FromCloudEventFacts.
Import GoString PubSub Statements.

Variable jsoniter_Unmarshal_map : list byte -> option (gmap string value) * option error.

Local Abbreviation FromCloudEvent := (PubSub.FromCloudEvent jsoniter_Unmarshal_map).

(** An error of the decoder is returned as it is, with the map the
    decoder left. *)
Lemma FromCloudEvent_error cloudEvent traceID m e :
  jsoniter_Unmarshal_map cloudEvent = (m, Some e) ->
  FromCloudEvent cloudEvent traceID = Returns (m, Some e).
Proof. intros H. unfold PubSub.FromCloudEvent. rewrite H. reflexivity. Qed.

(** [FromCloudEvent] returns an error exactly when the decoder does. *)
Lemma FromCloudEvent_error_iff cloudEvent traceID :
  (exists m e, FromCloudEvent cloudEvent traceID = Returns (m, Some e))
  <-> snd (jsoniter_Unmarshal_map cloudEvent) <> None.
Proof.
  unfold PubSub.FromCloudEvent, setTraceContext.
  destruct (jsoniter_Unmarshal_map cloudEvent) as [m [e|]]; simpl.
  - split; [discriminate | eauto].
  - split; [|congruence].
    intros (m' & e & H). destruct m; discriminate.
Qed.

(** A decoded object comes back with [traceid] set to the given trace
    id and every other entry as decoded. *)
Lemma FromCloudEvent_object cloudEvent traceID (m : gmap string value) :
  jsoniter_Unmarshal_map cloudEvent = (Some m, None) ->
  FromCloudEvent cloudEvent traceID
  = Returns (Some (<["traceid" := VString traceID]> m), None)
  /\ <["traceid" := VString traceID]> m !! "traceid" = Some (VString traceID)
  /\ forall k, k <> "traceid" -> <["traceid" := VString traceID]> m !! k = m !! k.
Proof.
  intros H. unfold PubSub.FromCloudEvent. rewrite H. simpl.
  split; [reflexivity|]. split.
  - apply lookup_insert_eq.
  - intros k Hk. apply lookup_insert_ne. congruence.
Qed.

(** C8 fails on the code where the decoder accepts the input and leaves
    the map [nil], as Go's decoders do for the JSON text [null]:
    [FromCloudEvent] then panics on the assignment of [traceid]; it
    returns neither an error nor a mapping. *)
Theorem FromCloudEvent_nil_map_panics cloudEvent traceID :
  jsoniter_Unmarshal_map cloudEvent = (None, None) ->
  FromCloudEvent cloudEvent traceID = Panics "assignment to entry in nil map"
  /\ (forall r, FromCloudEvent cloudEvent traceID <> Returns r).
Proof.
  intros H. unfold PubSub.FromCloudEvent. rewrite H. simpl.
  split; [reflexivity | discriminate].
Qed.

End FromCloudEventFacts.

Section EnvelopeOnSamples.
Import GoString PubSub Statements Samples.

Lemma FromCloudEvent_nil_map_panics_witness :
  PubSub.FromCloudEvent sample_jsoniter_Unmarshal_map (to_bytes "null") "trace-1"
  = Panics "assignment to entry in nil map"
  /\ (forall r, PubSub.FromCloudEvent sample_jsoniter_Unmarshal_map
                  (to_bytes "null") "trace-1" <> Returns r).
Proof.
  apply (FromCloudEvent_nil_map_panics sample_jsoniter_Unmarshal_map
           (to_bytes "null") "trace-1").
  vm_compute. reflexivity.
Defined.

(** The empty object comes back with the trace id as its only entry. *)
Example sample_FromCloudEvent_object :
  PubSub.FromCloudEvent sample_jsoniter_Unmarshal_map (to_bytes "{}") "trace-1"
  = Returns (Some {["traceid" := VString "trace-1"]}, None).
Proof.
  eapply eq_trans; [apply FromCloudEvent_object; vm_compute; reflexivity|].
  reflexivity.
Qed.

(** An envelope that expired in 2000, one without expiration, one with
    an expiration that is no date. *)
Example sample_HasExpired_past :
  PubSub.HasExpired sample_fmt_Sprintf_other sample_time_Parse_RFC3339 sample_now
    {["expiration" := VString "2000-01-01T00:00:00Z"]} = true.
Proof. vm_compute. reflexivity. Qed.

Example sample_HasExpired_missing :
  PubSub.HasExpired sample_fmt_Sprintf_other sample_time_Parse_RFC3339 sample_now ∅
  = false.
Proof. vm_compute. reflexivity. Qed.

Example sample_HasExpired_not_a_date :
  PubSub.HasExpired sample_fmt_Sprintf_other sample_time_Parse_RFC3339 sample_now
    {["expiration" := VString "not-a-date"]} = false.
Proof. vm_compute. reflexivity. Qed.

(** A JSON payload sent as "text/plain" is labelled "application/json". *)
Example sample_NewCloudEventsEnvelope_json :
  PubSub.NewCloudEventsEnvelope "generated-id" sample_jsoniter_Unmarshal
    "" "" "" "" "topic" "pubsub" "text/plain" (to_bytes "{}") "trace-1"
  !! "datacontenttype" = Some (VString "application/json").
Proof. vm_compute. reflexivity. Qed.

(** A TTL of ten seconds is written as an expiration for a component
    without native TTL, and left to a component that has it. *)
Example sample_ApplyMetadata_ttl :
  PubSub.ApplyMetadata sample_time_Format_RFC3339 sample_FeatureMessageTTL
    sample_TryGetTTL sample_now (Some {["id" := VString "A1"]}) []
    {["ttlInSeconds" := "10"]}
  = Returns (Some (<["expiration" := VString "2021-01-01T00:00:10Z"]>
                     {["id" := VString "A1"]})).
Proof. vm_compute. reflexivity. Qed.

Example sample_ApplyMetadata_native_ttl :
  PubSub.ApplyMetadata sample_time_Format_RFC3339 sample_FeatureMessageTTL
    sample_TryGetTTL sample_now (Some {["id" := VString "A1"]}) ["MESSAGE_TTL"]
    {["ttlInSeconds" := "10"]}
  = Returns (Some {["id" := VString "A1"]}).
Proof. vm_compute. reflexivity. Qed.

(** C7, as the specification states it, fails: the metadata carries a
    TTL and the component has no native TTL, yet for a [nil] envelope
    the call panics; no expiration is written and no envelope comes
    back, modified or not. *)
Lemma ApplyMetadata_nil_envelope_panics :
  snd (fst (sample_TryGetTTL {["ttlInSeconds" := "10"]})) = true
  /\ (sample_FeatureMessageTTL ∉ @nil Feature)
  /\ PubSub.ApplyMetadata sample_time_Format_RFC3339 sample_FeatureMessageTTL
       sample_TryGetTTL sample_now None [] {["ttlInSeconds" := "10"]}
     = Panics "assignment to entry in nil map"
  /\ (forall r, PubSub.ApplyMetadata sample_time_Format_RFC3339 sample_FeatureMessageTTL
                  sample_TryGetTTL sample_now None [] {["ttlInSeconds" := "10"]}
                <> Returns r).
Proof.
  split; [vm_compute; reflexivity|].
  split; [apply not_elem_of_nil|].
  split; [vm_compute; reflexivity|].
  intros r. vm_compute. discriminate.
Qed.

End EnvelopeOnSamples.

(** * Part III: further properties of the code *)

(** ** Which paths the pattern accepts *)

Section PathRegexpMore.
Import GoString PathRegexp Statements.

Lemma dot_star_app a b : dot_star (a +:+ b) = dot_star a && dot_star b.
Proof.
  induction a as [|c a IH]; simpl; [reflexivity|].
  rewrite IH. apply andb_assoc.
Qed.

Lemma contains_app c a b : contains c (a +:+ b) = contains c a || contains c b.
Proof.
  induction a as [|c' a IH]; simpl; [reflexivity|].
  rewrite IH. apply orb_assoc.
Qed.

Lemma dot_star_no_newline s : dot_star s = true <-> contains newline s = false.
Proof.
  induction s as [|c s IH]; simpl; [split; reflexivity|].
  unfold dot. rewrite andb_true_iff, orb_false_iff, negb_true_iff, IH. reflexivity.
Qed.

(** Without a slash the rest of the pattern cannot match. *)
Lemma lazy_groups_needs_slash s : forall started,
  contains slash s = false -> lazy_groups started s = None.
Proof.
  induction s as [|c s IH]; intros started; simpl; [reflexivity|].
  intros H. apply orb_false_iff in H as [Hc Hs].
  rewrite Hc, andb_false_r. simpl.
  rewrite (IH true Hs). destruct (dot c); reflexivity.
Qed.

(** A slash that only an empty rest follows does not end the twin id,
    and nothing else can. *)
Lemma lazy_groups_trailing_slash t : forall started,
  contains slash t = false ->
  lazy_groups started (t +:+ String slash "") = None.
Proof.
  induction t as [|c t IH]; intros started; simpl.
  - intros _. rewrite andb_false_r. reflexivity.
  - intros H. apply orb_false_iff in H as [Hc Ht].
    rewrite Hc, andb_false_r. simpl.
    rewrite (IH true Ht). destruct (dot c); reflexivity.
Qed.

(** Once the first group has a character, it ends at the next slash. *)
Lemma lazy_groups_stops_at_slash s : forall g1 g2,
  lazy_groups true s = Some (g1, g2) -> contains slash g1 = false.
Proof.
  induction s as [|c s IH]; intros g1 g2; simpl; [discriminate|].
  destruct (Ascii.eqb c slash && dot_plus s) eqn:Hstop.
  - intros [= <- <-]. reflexivity.
  - destruct (dot c); [|discriminate].
    destruct (lazy_groups true s) as [[h1 h2]|] eqn:Hrec; [|discriminate].
    intros [= <- <-]. simpl.
    rewrite (IH _ _ eq_refl), orb_false_r.
    destruct (Ascii.eqb c slash) eqn:Hc; [|reflexivity].
    simpl in Hstop.
    destruct (lazy_groups_sound _ _ _ _ Hrec) as (-> & Hh1 & Hh2 & _).
    apply dot_plus_spec in Hh2 as [Hne Hh2].
    assert (Hplus : dot_plus (h1 +:+ String slash h2) = true).
    { apply dot_plus_spec. split; [destruct h1; discriminate|].
      rewrite dot_star_app. simpl. rewrite Hh1, Hh2. reflexivity. }
    congruence.
Qed.

(** X1.  What a match returns: the path is [/], the twin id, [/] and
    the rest; the twin id is not empty and has no slash after its first
    character; the rest is not empty; the path has no newline. *)
Theorem FindStringSubmatch_twin_id path twin rest :
  FindStringSubmatch path = [path; twin; rest] ->
  path = "/" +:+ twin +:+ "/" +:+ rest
  /\ (exists c t, twin = String c t /\ contains slash t = false)
  /\ rest <> ""
  /\ contains newline path = false.
Proof.
  unfold FindStringSubmatch.
  destruct path as [|c0 s]; [discriminate|].
  destruct (Ascii.eqb c0 slash) eqn:Hc0; [|discriminate].
  apply Ascii.eqb_eq in Hc0. subst c0.
  destruct (lazy_groups false s) as [[g1 g2]|] eqn:Hm; [|discriminate].
  intros [= <- <-].
  destruct (lazy_groups_sound _ _ _ _ Hm) as (Hs & Hg1 & Hg2 & Hne).
  apply dot_plus_spec in Hg2 as [Hg2 Hg2'].
  split; [rewrite Hs; reflexivity|].
  split.
  - destruct s as [|c s]; [discriminate|]. simpl in Hm.
    destruct (dot c); [|discriminate].
    destruct (lazy_groups true s) as [[h1 h2]|] eqn:Hrec; [|discriminate].
    injection Hm as <- <-. exists c, h1. split; [reflexivity|].
    apply (lazy_groups_stops_at_slash _ _ _ Hrec).
  - split; [exact Hg2|].
    apply dot_star_no_newline. rewrite Hs. simpl.
    rewrite dot_star_app. simpl. rewrite Hg1, Hg2'. reflexivity.
Qed.

(** X2.  What the pattern refuses: a path that does not start with a
    slash, a path with a newline anywhere, a path with no slash after
    its second character, and a path whose only such slash is its last
    character. *)
Theorem FindStringSubmatch_refuses path :
  ((forall s, path <> String slash s) -> FindStringSubmatch path = [])
  /\ (contains newline path = true -> FindStringSubmatch path = [])
  /\ (forall c s, path = String slash (String c s) -> contains slash s = false ->
        FindStringSubmatch path = [])
  /\ (forall c t, path = String slash (String c (t +:+ String slash "")) ->
        contains slash t = false -> FindStringSubmatch path = []).
Proof.
  repeat split.
  - intros Hno. unfold FindStringSubmatch.
    destruct path as [|c s]; [reflexivity|].
    destruct (Ascii.eqb c slash) eqn:Hc; [|reflexivity].
    apply Ascii.eqb_eq in Hc. subst c. exfalso. apply (Hno s). reflexivity.
  - intros Hnl.
    destruct (FindStringSubmatch_cases path) as [Hnil | (twin & rest & Heq)];
      [exact Hnil|].
    apply FindStringSubmatch_groups in Heq as [(-> & _ & _ & Hd1 & Hd2) _].
    exfalso. simpl in Hnl. rewrite contains_app in Hnl. simpl in Hnl.
    apply dot_star_no_newline in Hd1, Hd2. rewrite Hd1, Hd2 in Hnl.
    discriminate.
  - intros c s -> Hs. unfold FindStringSubmatch. rewrite Ascii.eqb_refl.
    cbn [lazy_groups andb]. rewrite (lazy_groups_needs_slash s true Hs).
    destruct (dot c); reflexivity.
  - intros c t -> Ht. unfold FindStringSubmatch. rewrite Ascii.eqb_refl.
    cbn [lazy_groups andb]. rewrite (lazy_groups_trailing_slash t true Ht).
    destruct (dot c); reflexivity.
Qed.

Lemma FindStringSubmatch_twin_id_witness :
  "/t/a/b/" = "/" +:+ "t" +:+ "/" +:+ "a/b/"
  /\ (exists c t, "t" = String c t /\ contains slash t = false)
  /\ "a/b/" <> ""
  /\ contains newline "/t/a/b/" = false.
Proof.
  apply (FindStringSubmatch_twin_id "/t/a/b/" "t" "a/b/").
  reflexivity.
Defined.

End PathRegexpMore.

(** ** What the binding sends *)

Section BindingMore.
Import GoString PathRegexp DigitalTwins Statements.

Variable json_Unmarshal : list byte -> option (list jsonPatchOperation).
Variable json_Marshal : list jsonPatchOperation -> option string.
Variable update_outcome : UpdateCall -> option error.

Local Abbreviation second_pass := (DigitalTwins.second_pass json_Marshal update_outcome).
Local Abbreviation patchSingleTwin := (DigitalTwins.patchSingleTwin json_Unmarshal update_outcome).
Local Abbreviation patchMultipleTwin :=
  (DigitalTwins.patchMultipleTwin json_Unmarshal json_Marshal update_outcome).
Local Abbreviation Invoke := (DigitalTwins.Invoke json_Unmarshal json_Marshal update_outcome).

Lemma all_match_or_one_mismatch (ops : list jsonPatchOperation) :
  Forall (fun o => matches_pattern (Path o)) ops
  \/ Exists (fun o => ~ matches_pattern (Path o)) ops.
Proof.
  induction ops as [|o ops IH]; [left; constructor|].
  destruct (FindStringSubmatch_cases (Path o)) as [Hnil | (twin & rest & Heq)].
  - right. apply Exists_cons_hd. apply FindStringSubmatch_nil. exact Hnil.
  - destruct IH as [IH | IH]; [left | right; apply Exists_cons_tl; exact IH].
    constructor; [|exact IH].
    exists twin, rest. apply FindStringSubmatch_groups. exact Heq.
Qed.

(** The second pass sends the calls of an initial segment of the
    operations: all of them, or those before the first one that does not
    marshal. *)
Lemma second_pass_prefix d operationDoc : forall sent,
  exists done,
    second_pass d operationDoc sent = ((None, None), sent ++ map (call_for d) done)
    /\ done `prefix_of` operationDoc
    /\ Forall (fun o => json_Marshal [o] <> None) done.
Proof.
  induction operationDoc as [|v rest IH]; intros sent; simpl.
  - exists []. simpl. rewrite app_nil_r. repeat split; [reflexivity | constructor].
  - destruct (json_Marshal [v]) as [b|] eqn:Hb.
    + unfold bind, client_Update.
      destruct (IH (sent ++ [call_for d v])) as (done & Hrun & Hpre & Hall).
      exists (v :: done). split; [|split].
      * unfold call_for in *. rewrite Hrun, <- app_assoc. reflexivity.
      * apply prefix_cons. exact Hpre.
      * constructor; [congruence | exact Hall].
    + exists []. simpl. rewrite app_nil_r.
      repeat split; [apply prefix_nil | constructor].
Qed.

(** Every call [Invoke] sends is built by [new_call] from the binding,
    after the calls sent before. *)
Lemma Invoke_new_calls d req sent :
  exists calls,
    Invoke d req sent = ((None, None), sent ++ calls)
    /\ Forall (fun c => exists twinID patchDocument,
                 c = new_call d twinID patchDocument) calls
    /\ (json_Unmarshal (req_Data req) = None -> calls = []).
Proof.
  unfold DigitalTwins.Invoke, DigitalTwins.patchSingleTwin,
    DigitalTwins.patchMultipleTwin.
  destruct (json_Unmarshal (req_Data req)) as [ops|] eqn:Hdec.
  - destruct (present_nonempty (req_Metadata req) "twinID") as [val|].
    + exists [new_call d val ops].
      split; [reflexivity|]. split; [|discriminate].
      constructor; [eauto | constructor].
    + destruct (first_pass 0 ops ops) as [doc|].
      * destruct (second_pass_prefix d doc sent) as (done & Hrun & _ & _).
        exists (map (call_for d) done).
        split; [exact Hrun|]. split; [|discriminate].
        apply Forall_map, Forall_true. intros o. unfold call_for. simpl. eauto.
      * exists []. unfold ret. rewrite app_nil_r.
        split; [reflexivity|]. split; [constructor | discriminate].
  - exists []. unfold ret. rewrite app_nil_r.
    destruct (present_nonempty (req_Metadata req) "twinID");
      (split; [reflexivity|]; split; [constructor | reflexivity]).
Qed.

(** X3.  The first pass succeeds exactly when every path matches.  It
    then keeps the number and the order of the operations and the [op]
    and [value] of each; the twin id and the new path of an operation,
    put together again, are its old path. *)
Theorem first_pass_succeeds_iff (ops : list jsonPatchOperation) :
  (first_pass 0 ops ops <> None <-> Forall (fun o => matches_pattern (Path o)) ops)
  /\ (forall doc, first_pass 0 ops ops = Some doc ->
        length doc = length ops
        /\ Forall2 (fun o o' =>
             Op o' = Op o /\ Value o' = Value o
             /\ Path o = "/" +:+ TwinID o' +:+ Path o'
             /\ TwinID o' <> "") ops doc).
Proof.
  assert (Hshape : Forall (fun o => matches_pattern (Path o)) ops ->
            Forall2 (fun o o' =>
              Op o' = Op o /\ Value o' = Value o
              /\ Path o = "/" +:+ TwinID o' +:+ Path o'
              /\ TwinID o' <> "") ops (map first_pass_op ops)).
  { intros Hall. induction Hall as [|o l Ho Hall IH]; simpl; constructor; [|exact IH].
    destruct (FindStringSubmatch_matches _ Ho) as (twin & rest & Hm & Hs & _).
    rewrite (first_pass_op_stripped _ _ _ Hm). simpl.
    destruct Hs as (Hp & Hne & _). auto. }
  destruct (all_match_or_one_mismatch ops) as [Hall | Hex].
  - pose proof (first_pass_all_match ops [] Hall) as Hpass. simpl in Hpass.
    rewrite Hpass. split.
    + split; [intros _; exact Hall | discriminate].
    + intros doc [= <-]. split; [apply length_map | exact (Hshape Hall)].
  - rewrite (first_pass_some_mismatch ops 0%nat ops Hex).
    split; [|discriminate]. split; [congruence|].
    intros Hall. exfalso. clear Hshape.
    induction Hex as [o l Ho | o l Hex IH];
      apply Forall_cons in Hall as [Ho' Hall]; auto.
Qed.

(** X4.  Whatever the decoder and the marshaller do,
    [patchMultipleTwin] sends the calls of an initial segment of the
    rewritten batch, one operation per call and in input order: no
    operation is skipped, repeated or sent out of order, and there are
    at most as many calls as operations.  Nothing is sent when the
    batch does not decode. *)
Theorem patchMultipleTwin_sends_initial_segment d req sent :
  exists done,
    patchMultipleTwin d req sent = ((None, None), sent ++ map (call_for d) done)
    /\ match json_Unmarshal (req_Data req) with
       | Some ops =>
           done `prefix_of` map first_pass_op ops
           /\ (length done <= length ops)%nat
       | None => done = []
       end.
Proof.
  unfold DigitalTwins.patchMultipleTwin.
  destruct (json_Unmarshal (req_Data req)) as [ops|].
  - destruct (all_match_or_one_mismatch ops) as [Hall | Hex].
    + pose proof (first_pass_all_match ops [] Hall) as Hpass. simpl in Hpass.
      rewrite Hpass.
      destruct (second_pass_prefix d (map first_pass_op ops) sent)
        as (done & Hrun & Hpre & _).
      exists done. repeat split; [exact Hrun | exact Hpre |].
      apply prefix_length in Hpre. rewrite length_map in Hpre. exact Hpre.
    + rewrite (first_pass_some_mismatch ops 0%nat ops Hex).
      exists []. unfold ret. simpl. rewrite app_nil_r.
      repeat split; [apply prefix_nil | lia].
  - exists []. unfold ret. simpl. rewrite app_nil_r. auto.
Qed.

(** X6.  Every call [Invoke] sends comes after the calls sent before and
    carries the binding's instance URL and credentials, the resource
    [https://digitaltwins.azure.net], the precondition [*] and empty
    trace headers.  A request whose data does not decode sends nothing,
    in either mode. *)
Theorem Invoke_calls_configured d req sent :
  exists calls,
    Invoke d req sent = ((None, None), sent ++ calls)
    /\ Forall (configured_by d) calls
    /\ (json_Unmarshal (req_Data req) = None -> calls = []).
Proof.
  destruct (Invoke_new_calls d req sent) as (calls & Hrun & Hnew & Hnone).
  exists calls. repeat split; [exact Hrun | | exact Hnone].
  eapply Forall_impl; [exact Hnew|].
  intros c (twinID & patchDocument & ->). unfold configured_by. simpl.
  repeat split.
Qed.

(** X7.  A binding initialised from a complete configuration sends
    every call to the configured instance URL with the configured
    client id, client secret and tenant id, whatever configuration it
    had before. *)
Theorem Init_then_Invoke d0 metadata d req sent :
  Init d0 metadata = (d, None) ->
  exists calls,
    Invoke d req sent = ((None, None), sent ++ calls)
    /\ Forall (fun c =>
         Properties metadata !! "adtInstanceUrl" = Some (call_baseURI c)
         /\ Properties metadata !! "clientId" = Some (call_clientID c)
         /\ Properties metadata !! "clientSecret" = Some (call_clientSecret c)
         /\ Properties metadata !! "tenantId" = Some (call_tenantID c)) calls.
Proof.
  intros HInit.
  pose proof (Init_first_missing d0 metadata) as Hfirst.
  destruct (first_missing (Properties metadata)) as [k|].
  - rewrite Hfirst in HInit. discriminate.
  - destruct Hfirst as (id & secret & tenant & url & Hid & Hsecret & Htenant & Hurl & Heq).
    rewrite Heq in HInit. injection HInit as <-.
    apply present_nonempty_Some in Hid as [Hid _].
    apply present_nonempty_Some in Hsecret as [Hsecret _].
    apply present_nonempty_Some in Htenant as [Htenant _].
    apply present_nonempty_Some in Hurl as [Hurl _].
    destruct (Invoke_new_calls
                {| clientID := id; clientSecret := secret; tenantID := tenant;
                   adtInstanceURL := url |} req sent) as (calls & Hrun & Hnew & _).
    exists calls. split; [exact Hrun|].
    eapply Forall_impl; [exact Hnew|].
    intros c (twinID & patchDocument & ->). simpl. auto.
Qed.

End BindingMore.

Section UpdateOutcome.
Import GoString PathRegexp DigitalTwins Statements.

Variable json_Unmarshal : list byte -> option (list jsonPatchOperation).
Variable json_Marshal : list jsonPatchOperation -> option string.

Lemma second_pass_ignores_outcome outcome outcome' d operationDoc : forall sent,
  DigitalTwins.second_pass json_Marshal outcome d operationDoc sent
  = DigitalTwins.second_pass json_Marshal outcome' d operationDoc sent.
Proof.
  induction operationDoc as [|v rest IH]; intros sent; simpl; [reflexivity|].
  destruct (json_Marshal [v]); [|reflexivity].
  unfold bind, client_Update. apply IH.
Qed.

(** X8.  What the service answers changes nothing: with the same
    decoder and marshaller, [Invoke] returns the same values and sends
    the same calls under any two services.  A refused call neither
    stops the later calls nor is it sent again. *)
Theorem Invoke_ignores_update_outcome outcome outcome' d req sent :
  DigitalTwins.Invoke json_Unmarshal json_Marshal outcome d req sent
  = DigitalTwins.Invoke json_Unmarshal json_Marshal outcome' d req sent.
Proof.
  unfold DigitalTwins.Invoke, DigitalTwins.patchSingleTwin,
    DigitalTwins.patchMultipleTwin.
  destruct (present_nonempty (req_Metadata req) "twinID");
    destruct (json_Unmarshal (req_Data req)) as [ops|]; try reflexivity.
  all: destruct (first_pass 0 ops ops) as [doc|]; [|reflexivity].
  all: apply second_pass_ignores_outcome.
Qed.

End UpdateOutcome.

Section InitMore.
Import GoString DigitalTwins Statements.

Lemma present_nonempty_agree (m1 m2 : gmap string string) k :
  m1 !! k = m2 !! k -> present_nonempty m1 k = present_nonempty m2 k.
Proof. intros H. unfold present_nonempty. rewrite H. reflexivity. Qed.

(** X9.  [Init] reads the four required properties and nothing else:
    for two configurations that agree on them it returns the same
    error, and when it succeeds the binding it leaves is the same
    whatever the binding held before and whatever else the
    configurations contain. *)
Theorem Init_reads_required_fields_only d d' metadata metadata' :
  Forall (fun k => Properties metadata !! k = Properties metadata' !! k)
    required_fields ->
  snd (Init d metadata) = snd (Init d' metadata')
  /\ (snd (Init d metadata) = None -> Init d' metadata' = Init d metadata).
Proof.
  unfold required_fields. intros Hagree.
  apply Forall_cons in Hagree as [Hid Hagree].
  apply Forall_cons in Hagree as [Hsecret Hagree].
  apply Forall_cons in Hagree as [Htenant Hagree].
  apply Forall_cons in Hagree as [Hurl _].
  unfold Init, getAzureDigitalTwinsMetadata.
  rewrite <- (present_nonempty_agree _ _ _ Hid),
          <- (present_nonempty_agree _ _ _ Hsecret),
          <- (present_nonempty_agree _ _ _ Htenant),
          <- (present_nonempty_agree _ _ _ Hurl).
  destruct (present_nonempty (Properties metadata) "clientId");
    [|split; [reflexivity | discriminate]].
  destruct (present_nonempty (Properties metadata) "clientSecret");
    [|split; [reflexivity | discriminate]].
  destruct (present_nonempty (Properties metadata) "tenantId");
    [|split; [reflexivity | discriminate]].
  destruct (present_nonempty (Properties metadata) "adtInstanceUrl");
    [|split; [reflexivity | discriminate]].
  split; reflexivity.
Qed.

End InitMore.

(** ** Envelopes and their expiration *)

Section EnvelopeMore.
Import GoString PubSub Statements.

Variable uuid_New : string.
Variable jsoniter_Unmarshal : list byte -> value * option error.
Variable jsoniter_Unmarshal_map : list byte -> option (gmap string value) * option error.
Variable fmt_Sprintf_other : value -> string.
Variable time_Parse_RFC3339 : string -> option Time.
Variable time_Format_RFC3339 : Time -> string.
Variable FeatureMessageTTL : Feature.
Variable TryGetTTL : gmap string string -> Duration * bool * option error.

Local Abbreviation NewCloudEventsEnvelope :=
  (PubSub.NewCloudEventsEnvelope uuid_New jsoniter_Unmarshal).
Local Abbreviation FromCloudEvent := (PubSub.FromCloudEvent jsoniter_Unmarshal_map).
Local Abbreviation HasExpired :=
  (PubSub.HasExpired fmt_Sprintf_other time_Parse_RFC3339).
Local Abbreviation ApplyMetadata :=
  (PubSub.ApplyMetadata time_Format_RFC3339 FeatureMessageTTL TryGetTTL).

Lemma HasExpired_insert_other now (cloudEvent : gmap string value) k v :
  k <> "expiration" ->
  HasExpired now (<[k := v]> cloudEvent) = HasExpired now cloudEvent.
Proof.
  intros Hk. unfold PubSub.HasExpired, expirationField.
  rewrite lookup_insert_ne by exact Hk. reflexivity.
Qed.

(** X10.  A new envelope has not expired, at any time and for any
    arguments: it has no [expiration] field. *)
Theorem NewCloudEventsEnvelope_not_expired now
    id source eventType subject topic pubsubName dataContentType data traceID :
  NewCloudEventsEnvelope id source eventType subject topic pubsubName
    dataContentType data traceID !! "expiration" = None
  /\ HasExpired now
       (NewCloudEventsEnvelope id source eventType subject topic pubsubName
          dataContentType data traceID) = false.
Proof.
  assert (Hnone : NewCloudEventsEnvelope id source eventType subject topic pubsubName
            dataContentType data traceID !! "expiration" = None).
  { rewrite NewCloudEventsEnvelope_unfold. by simplify_map_eq. }
  split; [exact Hnone|].
  unfold PubSub.HasExpired, expirationField. rewrite Hnone. reflexivity.
Qed.

(** X11.  A new envelope never carries an empty [source], [type] or
    [datacontenttype], and its [id] is not empty either when the UUID
    generator gives a non-empty string. *)
Theorem NewCloudEventsEnvelope_no_empty_field
    id source eventType subject topic pubsubName dataContentType data traceID :
  NewCloudEventsEnvelope id source eventType subject topic pubsubName
    dataContentType data traceID !! "source" <> Some (VString "")
  /\ NewCloudEventsEnvelope id source eventType subject topic pubsubName
       dataContentType data traceID !! "type" <> Some (VString "")
  /\ NewCloudEventsEnvelope id source eventType subject topic pubsubName
       dataContentType data traceID !! "datacontenttype" <> Some (VString "")
  /\ (uuid_New <> "" ->
      NewCloudEventsEnvelope id source eventType subject topic pubsubName
        dataContentType data traceID !! "id" <> Some (VString "")).
Proof.
  rewrite NewCloudEventsEnvelope_unfold.
  repeat split; simplify_map_eq.
  - destruct source; simpl; congruence.
  - destruct eventType; simpl; congruence.
  - destruct (snd (jsoniter_Unmarshal data)); [|congruence].
    destruct dataContentType; simpl; congruence.
  - intros Huuid. simplify_map_eq. destruct id; simpl; congruence.
Qed.

(** X12.  On an envelope that is not [nil], [ApplyMetadata] returns; it
    touches the [expiration] field only; when it writes, an
    [expiration] already in the envelope does not change the result;
    applied again with the same clock reading it changes nothing more.
    On a [nil] envelope it returns [nil] or panics: it never makes a
    map. *)
Theorem ApplyMetadata_only_expiration now (cloudEvent : gmap string value)
    (componentFeatures : list Feature) (metadata : gmap string string) :
  (exists written : gmap string value,
     ApplyMetadata now (Some cloudEvent) componentFeatures metadata
     = Returns (Some written)
     /\ (forall k, k <> "expiration" -> written !! k = cloudEvent !! k)
     /\ (written <> cloudEvent ->
         forall old,
           ApplyMetadata now (Some (<["expiration" := old]> cloudEvent))
             componentFeatures metadata
           = Returns (Some written))
     /\ ApplyMetadata now (Some written) componentFeatures metadata
        = Returns (Some written))
  /\ (ApplyMetadata now None componentFeatures metadata = Returns None
      \/ ApplyMetadata now None componentFeatures metadata
         = Panics "assignment to entry in nil map").
Proof.
  unfold PubSub.ApplyMetadata, expirationField.
  destruct (TryGetTTL metadata) as [[ttl hasTTL] err].
  destruct (hasTTL && negb (IsPresent FeatureMessageTTL componentFeatures)).
  - split; [|right; reflexivity].
    eexists. split; [reflexivity|]. split; [|split].
    + intros k Hk. apply lookup_insert_ne. congruence.
    + intros _ old. rewrite insert_insert_eq. reflexivity.
    + rewrite insert_insert_eq. reflexivity.
  - split; [|left; reflexivity].
    exists cloudEvent. split; [reflexivity|]. split; [|split].
    + reflexivity.
    + congruence.
    + reflexivity.
Qed.

(** X13.  Written and read back, on an envelope that is not [nil]: when
    [ApplyMetadata] has an expiration to write and [time.Parse] reads
    what [Format] wrote, the call returns an envelope that has expired
    at a later reading of the clock exactly when the parsed instant is
    before that reading. *)
Theorem ApplyMetadata_then_HasExpired now later (cloudEvent : gmap string value)
    (componentFeatures : list Feature) (metadata : gmap string string) expiration :
  snd (fst (TryGetTTL metadata)) = true ->
  FeatureMessageTTL ∉ componentFeatures ->
  time_Format_RFC3339
    {| unixNano := unixNano now + fst (fst (TryGetTTL metadata)); zoneOffset := 0 |}
  <> "" ->
  time_Parse_RFC3339
    (time_Format_RFC3339
       {| unixNano := unixNano now + fst (fst (TryGetTTL metadata)); zoneOffset := 0 |})
  = Some expiration ->
  exists written : gmap string value,
    ApplyMetadata now (Some cloudEvent) componentFeatures metadata
    = Returns (Some written)
    /\ HasExpired later written = (unixNano expiration <? unixNano later)%Z.
Proof.
  intros HTTL Hfeature Hne Hparse.
  unfold PubSub.ApplyMetadata.
  destruct (TryGetTTL metadata) as [[ttl hasTTL] err]. simpl in *. subst hasTTL.
  destruct (IsPresent FeatureMessageTTL componentFeatures) eqn:Hp.
  { apply IsPresent_elem_of in Hp. contradiction. }
  simpl. eexists. split; [reflexivity|].
  unfold PubSub.HasExpired, expirationField.
  rewrite lookup_insert_eq. unfold UTC, Add. simpl.
  revert Hne Hparse.
  generalize (time_Format_RFC3339 {| unixNano := unixNano now + ttl; zoneOffset := 0 |}).
  intros [|c written] Hne Hparse; [congruence|].
  simpl. rewrite Hparse. reflexivity.
Qed.

(** X14.  Expiry is for good: an envelope that has expired at one
    reading of the clock has expired at every later one. *)
Theorem HasExpired_monotone now later (cloudEvent : gmap string value) :
  (unixNano now <= unixNano later)%Z ->
  HasExpired now cloudEvent = true ->
  HasExpired later cloudEvent = true.
Proof.
  unfold PubSub.HasExpired, Before, UTC. simpl. intros Hle.
  destruct (cloudEvent !! expirationField) as [e|]; [|discriminate].
  destruct (differs_from_empty_string e); [|discriminate].
  destruct (time_Parse_RFC3339 (PubSub.fmt_Sprintf_s fmt_Sprintf_other e));
    [|discriminate].
  rewrite !Z.ltb_lt. lia.
Qed.

(** X15.  [HasExpired] looks at the [expiration] entry and at the
    instant of the clock reading only: other fields and the zone of the
    reading make no difference. *)
Theorem HasExpired_reads_expiration_only now now' (cloudEvent cloudEvent' : gmap string value) :
  cloudEvent !! "expiration" = cloudEvent' !! "expiration" ->
  unixNano now = unixNano now' ->
  HasExpired now cloudEvent = HasExpired now' cloudEvent'.
Proof.
  intros Hentry Hinstant.
  unfold PubSub.HasExpired, expirationField, Before, UTC. simpl.
  rewrite Hentry, Hinstant. reflexivity.
Qed.

(** X16.  A decoded envelope keeps its expiry through
    [FromCloudEvent]: the returned map has the decoded fields and
    [traceid], and it has expired exactly when the decoded one has. *)
Theorem FromCloudEvent_keeps_expiry now cloudEvent traceID (m : gmap string value) :
  jsoniter_Unmarshal_map cloudEvent = (Some m, None) ->
  exists m',
    FromCloudEvent cloudEvent traceID = Returns (Some m', None)
    /\ dom m' = {["traceid"]} ∪ dom m
    /\ m' !! "expiration" = m !! "expiration"
    /\ HasExpired now m' = HasExpired now m.
Proof.
  intros Hdec.
  exists (<["traceid" := VString traceID]> m).
  split; [apply FromCloudEvent_object; exact Hdec|].
  split; [apply dom_insert_L|].
  split; [apply lookup_insert_ne; discriminate|].
  apply HasExpired_insert_other. discriminate.
Qed.

(** X17.  What a return of [FromCloudEvent] tells: without an error the
    map is not [nil], the decoder accepted the input, and the map is
    the decoded one with [traceid] set; with an error the map is the
    one the decoder left, and no trace id was written into it. *)
Theorem FromCloudEvent_returns cloudEvent traceID m err :
  FromCloudEvent cloudEvent traceID = Returns (m, err) ->
  match err with
  | None => exists m0, jsoniter_Unmarshal_map cloudEvent = (Some m0, None)
                       /\ m = Some (<["traceid" := VString traceID]> m0)
  | Some e => jsoniter_Unmarshal_map cloudEvent = (m, Some e)
  end.
Proof.
  unfold PubSub.FromCloudEvent, setTraceContext.
  destruct (jsoniter_Unmarshal_map cloudEvent) as [m0 [e|]].
  - intros [= <- <-]. reflexivity.
  - destruct m0 as [m0|]; [|discriminate].
    intros [= <- <-]. exists m0. split; reflexivity.
Qed.

End EnvelopeMore.

(** ** The further properties on sample inputs *)

Section MoreOnSamples.
Import GoString PathRegexp DigitalTwins PubSub Statements Samples.

Ltac sample_paths :=
  repeat constructor;
  try (apply matches_pattern_found; vm_compute; discriminate);
  try discriminate.

Lemma Init_then_Invoke_witness :
  exists calls,
    DigitalTwins.Invoke sample_json_Unmarshal sample_json_Marshal sample_update_outcome
      {| clientID := "app"; clientSecret := "secret"; tenantID := "tenant";
         adtInstanceURL := "https://example" |}
      (request interleaved_batch ∅) []
    = ((None, None), [] ++ calls)
    /\ Forall (fun c =>
         Properties complete_metadata !! "adtInstanceUrl" = Some (call_baseURI c)
         /\ Properties complete_metadata !! "clientId" = Some (call_clientID c)
         /\ Properties complete_metadata !! "clientSecret" = Some (call_clientSecret c)
         /\ Properties complete_metadata !! "tenantId" = Some (call_tenantID c)) calls.
Proof.
  apply (Init_then_Invoke sample_json_Unmarshal sample_json_Marshal
           sample_update_outcome NewAzureDigitalTwins complete_metadata).
  vm_compute. reflexivity.
Defined.

Lemma Init_reads_required_fields_only_witness :
  snd (Init NewAzureDigitalTwins complete_metadata)
  = snd (Init sample_binding
           {| Name := "other";
              Properties := <["partitionKey" := "p"]> (Properties complete_metadata) |})
  /\ (snd (Init NewAzureDigitalTwins complete_metadata) = None ->
      Init sample_binding
        {| Name := "other";
           Properties := <["partitionKey" := "p"]> (Properties complete_metadata) |}
      = Init NewAzureDigitalTwins complete_metadata).
Proof.
  apply (Init_reads_required_fields_only NewAzureDigitalTwins sample_binding
           complete_metadata
           {| Name := "other";
              Properties := <["partitionKey" := "p"]> (Properties complete_metadata) |}).
  repeat constructor.
Defined.

Lemma ApplyMetadata_then_HasExpired_witness :
  exists written : gmap string value,
    PubSub.ApplyMetadata sample_time_Format_RFC3339 sample_FeatureMessageTTL
      sample_TryGetTTL sample_now (Some {["id" := VString "A1"]}) []
      {["ttlInSeconds" := "10"]}
    = Returns (Some written)
    /\ PubSub.HasExpired sample_fmt_Sprintf_other sample_time_Parse_RFC3339_2021
         sample_later written
       = (unixNano {| unixNano := 1609459210000000000; zoneOffset := 0 |}
          <? unixNano sample_later)%Z.
Proof.
  apply (ApplyMetadata_then_HasExpired sample_fmt_Sprintf_other
           sample_time_Parse_RFC3339_2021 sample_time_Format_RFC3339
           sample_FeatureMessageTTL sample_TryGetTTL sample_now sample_later
           {["id" := VString "A1"]} [] {["ttlInSeconds" := "10"]}).
  - vm_compute. reflexivity.
  - apply not_elem_of_nil.
  - vm_compute. discriminate.
  - vm_compute. reflexivity.
Defined.

Lemma HasExpired_monotone_witness :
  PubSub.HasExpired sample_fmt_Sprintf_other sample_time_Parse_RFC3339 sample_later
    expired_envelope = true.
Proof.
  apply (HasExpired_monotone sample_fmt_Sprintf_other sample_time_Parse_RFC3339
           sample_now sample_later expired_envelope).
  - vm_compute. discriminate.
  - vm_compute. reflexivity.
Defined.

Lemma HasExpired_reads_expiration_only_witness :
  PubSub.HasExpired sample_fmt_Sprintf_other sample_time_Parse_RFC3339 sample_now
    expired_envelope
  = PubSub.HasExpired sample_fmt_Sprintf_other sample_time_Parse_RFC3339
      {| unixNano := 1609459200000000000; zoneOffset := 0 |}
      {["expiration" := VString "2000-01-01T00:00:00Z"]}.
Proof.
  apply (HasExpired_reads_expiration_only sample_fmt_Sprintf_other
           sample_time_Parse_RFC3339 sample_now
           {| unixNano := 1609459200000000000; zoneOffset := 0 |}
           expired_envelope {["expiration" := VString "2000-01-01T00:00:00Z"]}).
  - vm_compute. reflexivity.
  - reflexivity.
Defined.

Lemma FromCloudEvent_keeps_expiry_witness :
  exists m',
    PubSub.FromCloudEvent envelope_jsoniter_Unmarshal_map
      (to_bytes expired_envelope_json) "trace-1" = Returns (Some m', None)
    /\ dom m' = {["traceid"]} ∪ dom expired_envelope
    /\ m' !! "expiration" = expired_envelope !! "expiration"
    /\ PubSub.HasExpired sample_fmt_Sprintf_other sample_time_Parse_RFC3339 sample_now m'
       = PubSub.HasExpired sample_fmt_Sprintf_other sample_time_Parse_RFC3339 sample_now
           expired_envelope.
Proof.
  apply (FromCloudEvent_keeps_expiry envelope_jsoniter_Unmarshal_map
           sample_fmt_Sprintf_other sample_time_Parse_RFC3339 sample_now
           (to_bytes expired_envelope_json) "trace-1" expired_envelope).
  vm_compute. reflexivity.
Defined.

Lemma FromCloudEvent_returns_witness :
  exists m0,
    envelope_jsoniter_Unmarshal_map (to_bytes expired_envelope_json)
    = (Some m0, None)
    /\ Some (<["traceid" := VString "trace-1"]> expired_envelope)
       = Some (<["traceid" := VString "trace-1"]> m0).
Proof.
  apply (FromCloudEvent_returns envelope_jsoniter_Unmarshal_map
           (to_bytes expired_envelope_json) "trace-1"
           (Some (<["traceid" := VString "trace-1"]> expired_envelope)) None).
  vm_compute. reflexivity.
Defined.

End MoreOnSamples.

Section EdgeCases.
Import GoString PathRegexp DigitalTwins PubSub Statements Samples.

(** X18.  A batch with no operation: the multi-twin mode sends nothing,
    the single-twin mode still sends one call, with an empty patch
    document. *)
Theorem Invoke_empty_batch
    (json_Unmarshal : list byte -> option (list jsonPatchOperation))
    (json_Marshal : list jsonPatchOperation -> option string)
    (update_outcome : UpdateCall -> option error) d req sent :
  json_Unmarshal (req_Data req) = Some [] ->
  DigitalTwins.patchMultipleTwin json_Unmarshal json_Marshal update_outcome d req sent
  = ((None, None), sent)
  /\ forall twinID,
       DigitalTwins.patchSingleTwin json_Unmarshal update_outcome d twinID req sent
       = ((None, None), sent ++ [new_call d twinID []]).
Proof.
  intros Hdec.
  unfold DigitalTwins.patchMultipleTwin, DigitalTwins.patchSingleTwin.
  rewrite Hdec. split; [reflexivity | intros twinID; reflexivity].
Qed.

Lemma Invoke_empty_batch_witness :
  DigitalTwins.patchMultipleTwin empty_aware_json_Unmarshal sample_json_Marshal
    sample_update_outcome sample_binding (request [] ∅) []
  = ((None, None), [])
  /\ forall twinID,
       DigitalTwins.patchSingleTwin empty_aware_json_Unmarshal sample_update_outcome
         sample_binding twinID (request [] ∅) []
       = ((None, None), [] ++ [new_call sample_binding twinID []]).
Proof.
  apply (Invoke_empty_batch empty_aware_json_Unmarshal sample_json_Marshal
           sample_update_outcome sample_binding (request [] ∅) []).
  vm_compute. reflexivity.
Defined.

(** X19.  The payload is stored as it is: the bytes of the envelope's
    [data] string are the payload, for every payload, JSON or not. *)
Theorem NewCloudEventsEnvelope_data_round_trip
    (uuid_New : string) (jsoniter_Unmarshal : list byte -> value * option error)
    id source eventType subject topic pubsubName dataContentType data traceID :
  exists s,
    PubSub.NewCloudEventsEnvelope uuid_New jsoniter_Unmarshal
      id source eventType subject topic pubsubName dataContentType data traceID
    !! "data" = Some (VString s)
    /\ to_bytes s = data.
Proof.
  exists (of_bytes data). split.
  - rewrite NewCloudEventsEnvelope_unfold. by simplify_map_eq.
  - apply list_byte_of_string_of_list_byte.
Qed.

End EdgeCases.
